(** * Shallow embedding of the ClimateHack23 solar-forecasting sources

    - [ClimateHack23 Resources/dataset.py]: the iterable [Dataset]
      (anchor-time enumeration, per-anchor windowing, per-site extraction
      under a bare [try/except: continue]);
    - [ClimateHack23 Resources/Resnet_model.py]: [BasicBlock] and
      [ResNetModel], embedded at the level of tensor shapes, module state
      (BatchNorm batch counters, the regression layer's widths) and the
      Python exceptions raised along the way.

    Python values are modelled as follows.  A [datetime] is an integer
    number of minutes [ordinal * 1440 + minute_of_day] (all timestamps in
    the data are whole minutes); numpy arrays and torch tensors are
    represented by their shape; a generator is represented by the list of
    values it yields together with the way it stops. *)

From Stdlib Require Import ZArith List String Ascii Bool Lia Sorted.
Import ListNotations.
Open Scope Z_scope.

(** ** Python exceptions and fallible computations *)

Inductive PyErr :=
| NameError (name : string)
| KeyError
| ValueError
| IndexError
| AssertionError
| OverflowError
| RuntimeError
(* pandas' [OutOfBoundsDatetime] (a subclass of [ValueError]) *)
| OutOfBoundsDatetime.

Inductive res (A : Type) :=
| Ok (a : A)
| Err (e : PyErr).
Arguments Ok {A} a.
Arguments Err {A} e.

Definition res_bind {A B} (r : res A) (k : A -> res B) : res B :=
  match r with Ok a => k a | Err e => Err e end.

Notation "x <- r ;; k" := (res_bind r (fun x => k))
  (at level 61, r at next level, right associativity).

Definition py_assert (b : bool) : res unit :=
  if b then Ok tt else Err AssertionError.

(** How a generator stops: it returns normally, it raises, or the
    (finite) fuel given to the embedding of a [while] loop ran out. *)
Inductive stop :=
| Done
| Raised (e : PyErr)
| OutOfFuel.

(** ** Python's [datetime] module *)
Module PyDatetime.

Definition MINYEAR := 1.
Definition MAXYEAR := 9999.
Definition MAXORDINAL := 3652059.

Definition is_leap (y : Z) : bool :=
  (Z.eqb (y mod 4) 0 && negb (Z.eqb (y mod 100) 0)) || Z.eqb (y mod 400) 0.

Definition days_in_month (y m : Z) : Z :=
  if Z.eqb m 2 then (if is_leap y then 29 else 28)
  else if Z.eqb m 4 || Z.eqb m 6 || Z.eqb m 9 || Z.eqb m 11 then 30
  else 31.

(** [_DAYS_BEFORE_MONTH] of CPython's datetime.py (non-leap year). *)
Definition days_before_month_tbl (m : Z) : Z :=
  nth (Z.to_nat m) [-1; 0; 31; 59; 90; 120; 151; 181; 212; 243; 273; 304; 334] 0.

Definition days_before_year (year : Z) : Z :=
  let y := year - 1 in y * 365 + y / 4 - y / 100 + y / 400.

Definition days_before_month (year month : Z) : Z :=
  days_before_month_tbl month + (if (2 <? month) && is_leap year then 1 else 0).

(** [_ymd2ord] *)
Definition ymd2ord (y m d : Z) : Z :=
  days_before_year y + days_before_month y m + d.

(** A [datetime] value, in minutes, is valid when its date part lies
    between [date.min] and [date.max]. *)
Definition valid (t : Z) : bool :=
  (1 <=? t / 1440) && (t / 1440 <=? MAXORDINAL).

(** [datetime(y, m, d)]: [ValueError] on an out-of-range field. *)
Definition datetime (y m d : Z) : res Z :=
  if (MINYEAR <=? y) && (y <=? MAXYEAR) && (1 <=? m) && (m <=? 12)
     && (1 <=? d) && (d <=? days_in_month y m)
  then Ok (ymd2ord y m d * 1440)
  else Err ValueError.

(** [t + timedelta(minutes=delta)]: [OverflowError] when the result leaves
    the [datetime] range (a [timedelta] too large to build raises the same
    exception). *)
Definition add (t delta : Z) : res Z :=
  if valid (t + delta) then Ok (t + delta) else Err OverflowError.

(** [datetime.combine(date, time(hour))] *)
Definition combine (t hour : Z) : Z := (t / 1440) * 1440 + 60 * hour.

(** [dt.time()], as minutes since midnight. *)
Definition time_of (t : Z) : Z := t mod 1440.

(** [_ord2ymd] of CPython's datetime.py. *)
Definition ord2ymd (ord : Z) : Z * Z * Z :=
  let n := ord - 1 in
  let n400 := n / 146097 in let n := n mod 146097 in
  let year := n400 * 400 + 1 in
  let n100 := n / 36524 in let n := n mod 36524 in
  let n4 := n / 1461 in let n := n mod 1461 in
  let n1 := n / 365 in let n := n mod 365 in
  let year := year + n100 * 100 + n4 * 4 + n1 in
  if Z.eqb n1 4 || Z.eqb n100 4 then (year - 1, 12, 31)
  else
    let leap := Z.eqb n1 3 && (negb (Z.eqb n4 24) || Z.eqb n100 3) in
    let month := Z.shiftr (n + 50) 5 in
    let preceding := days_before_month_tbl month
                     + (if (2 <? month) && leap then 1 else 0) in
    let '(month, preceding) :=
      if n <? preceding
      then (month - 1, preceding - (days_before_month_tbl month
                                     - days_before_month_tbl (month - 1)
                                     + (if Z.eqb (month - 1) 2 && leap then 1 else 0)))
      else (month, preceding) in
    (year, month, n - preceding + 1).

Definition digit (d : Z) : ascii := ascii_of_nat (48 + Z.to_nat d).

(** Zero-padded decimal rendering on [width] digits. *)
Fixpoint pad (width : nat) (v : Z) : string :=
  match width with
  | O => EmptyString
  | S w => pad w (v / 10) ++ String (digit (v mod 10)) EmptyString
  end.

(** [dt.strftime('%Y-%m-%dT%H:%M:%S')] *)
Definition iso_format (t : Z) : string :=
  let '(y, m, d) := ord2ymd (t / 1440) in
  let mins := time_of t in
  pad 4 y ++ "-" ++ pad 2 m ++ "-" ++ pad 2 d ++ "T"
  ++ pad 2 (mins / 60) ++ ":" ++ pad 2 (mins mod 60) ++ ":00".

End PyDatetime.

(** ** [dataset.py] *)
Module Dataset.
Import PyDatetime.

(** *** [str.split("-")] and [int(str)] *)

Fixpoint split_dash (s : string) : list string :=
  match s with
  | EmptyString => [EmptyString]
  | String c rest =>
      if Ascii.eqb c "-"%char then EmptyString :: split_dash rest
      else match split_dash rest with
           | w :: ws => String c w :: ws
           | [] => [String c EmptyString]
           end
  end.

Definition is_digit (c : ascii) : bool :=
  let n := nat_of_ascii c in (48 <=? n)%nat && (n <=? 57)%nat.

(** The characters [int()] treats as whitespace, reading a character as
    the Latin-1 code point it encodes: [\t], [\n], [\v], [\f], [\r],
    [\x1c] .. [\x1f], the space, [\x85] and [\xa0]. *)
Definition is_space (c : ascii) : bool :=
  let n := nat_of_ascii c in
  ((9 <=? n)%nat && (n <=? 13)%nat) || ((28 <=? n)%nat && (n <=? 32)%nat)
  || (n =? 133)%nat || (n =? 160)%nat.

Fixpoint strip_left (s : string) : string :=
  match s with
  | String c rest => if is_space c then strip_left rest else s
  | EmptyString => EmptyString
  end.

Definition strip (s : string) : string :=
  string_of_list_ascii (rev (list_ascii_of_string
    (strip_left (string_of_list_ascii (rev (list_ascii_of_string (strip_left s))))))).

(** Digits with single underscores between them, accumulated in [acc];
    [after_digit] records that the previous character was a digit. *)
Fixpoint digits (s : string) (acc : Z) (after_digit : bool) : option Z :=
  match s with
  | EmptyString => if after_digit then Some acc else None
  | String c rest =>
      if is_digit c then digits rest (acc * 10 + Z.of_nat (nat_of_ascii c - 48)) true
      else if Ascii.eqb c "_"%char && after_digit then
        match rest with
        | String c' _ => if is_digit c' then digits rest acc false else None
        | EmptyString => None
        end
      else None
  end.

(** [int(s)] on a base-10 literal: surrounding whitespace, an optional
    sign, ASCII digits with single underscores between them; anything else
    raises [ValueError]. *)
Definition py_int (s : string) : res Z :=
  match strip s with
  | String c rest =>
      if Ascii.eqb c "-"%char then
        match digits rest 0 false with Some v => Ok (- v) | None => Err ValueError end
      else if Ascii.eqb c "+"%char then
        match digits rest 0 false with Some v => Ok v | None => Err ValueError end
      else
        match digits (String c rest) 0 false with Some v => Ok v | None => Err ValueError end
  | EmptyString => Err ValueError
  end.

Fixpoint map_int (ws : list string) : res (list Z) :=
  match ws with
  | [] => Ok []
  | w :: ws' => v <- py_int w ;; vs <- map_int ws' ;; Ok (v :: vs)
  end.

(** [list(map(int, s.split("-")))] *)
Definition parse_date (s : string) : res (list Z) := map_int (split_dash s).

(** [lst[i]] *)
Definition py_index {A} (l : list A) (i : nat) : res A :=
  match nth_error l i with Some a => Ok a | None => Err IndexError end.

(** *** Data *)

(** The PV table: a frame indexed by the MultiIndex [(timestamp, site_id)]
    with named columns; a row is [(timestamp, site_id, values)], one value
    per column. *)
Record PVTable := {
  pv_cols : list string;
  pv_rows : list (Z * Z * list Z)
}.

(** [hrv["data"]]: a [(time, y, x, channel)] array, given by its time
    coordinate (sorted) and its spatial and channel sizes. *)
Record HRV := {
  hrv_times : list Z;
  hrv_ny : Z;
  hrv_nx : Z;
  hrv_nc : Z
}.

(** [site_locations["hrv"]]: site id to pixel [(x, y)], in dict order. *)
Definition Locations := list (Z * (Z * Z)).

Record Dataset := {
  pv : PVTable;
  hrv : HRV;
  site_locations : Locations;
  is_incident : bool;
  sites : list Z;
  start_date : list Z;
  end_date : list Z;
  crop_size : Z;
  horizon : Z
}.

(** [Dataset.__init__].  The argument [sites] is [None] or a Python list;
    [sites if sites else list(site_locations["hrv"].keys())] takes the
    keys exactly when it is [None] or empty. *)
Definition init (pv0 : PVTable) (hrv0 : HRV) (locs : Locations)
    (is_incident0 : bool) (start_date0 end_date0 : string)
    (crop_size0 horizon0 : Z) (sites0 : option (list Z)) : res Dataset :=
  let sites1 := match sites0 with
                | Some ((_ :: _) as l) => l
                | _ => map fst locs
                end in
  sd <- parse_date start_date0 ;;
  ed <- parse_date end_date0 ;;
  Ok {| pv := pv0; hrv := hrv0; site_locations := locs;
        is_incident := is_incident0; sites := sites1;
        start_date := sd; end_date := ed;
        crop_size := crop_size0; horizon := horizon0 |}.

(** *** [_get_image_times] *)

(** Generator results: yielded values and how the generator stopped. *)
Definition gen A := (list A * stop)%type.

(** Inner [while current_time.time() < end_time] loop; [if current_time]
    always holds (a [datetime] is truthy). *)
Fixpoint hours_loop (fuel : nat) (current : Z) : gen Z :=
  match fuel with
  | O => ([], OutOfFuel)
  | S f =>
      if time_of current <? 17 * 60 then
        match add current 60 with
        | Ok next => let '(ts, st) := hours_loop f next in (current :: ts, st)
        | Err e => ([current], Raised e)
        end
      else ([], Done)
  end.

(** Outer [while date <= max_date] loop. *)
Fixpoint days_loop (fuel : nat) (date max_date : Z) : gen Z :=
  match fuel with
  | O => ([], OutOfFuel)
  | S f =>
      if date <=? max_date then
        let '(ts, st) := hours_loop fuel (combine date 8) in
        match st with
        | Done =>
            match add date 1440 with
            | Ok date' => let '(ts', st') := days_loop f date' max_date in (ts ++ ts', st')
            | Err e => (ts, Raised e)
            end
        | _ => (ts, st)
        end
      else ([], Done)
  end.

Definition get_image_times (ds : Dataset) (fuel : nat) : gen Z :=
  match (y <- py_index (start_date ds) 0 ;; m <- py_index (start_date ds) 1 ;;
         d <- py_index (start_date ds) 2 ;; datetime y m d) with
  | Err e => ([], Raised e)
  | Ok min_date =>
      match (y <- py_index (end_date ds) 0 ;; m <- py_index (end_date ds) 1 ;;
             d <- py_index (end_date ds) 2 ;; datetime y m d) with
      | Err e => ([], Raised e)
      | Ok max_date => days_loop fuel min_date max_date
      end
  end.


(** *** pandas and numpy operations used by [__iter__] *)

(** A PV object: a DataFrame (columns and rows) or, after [df["power"]],
    a Series (one value per row). *)
Inductive PVObj :=
| Frame (cols : list string) (rows : list (Z * Z * list Z))
| Series (rows : list (Z * Z * Z)).

Definition in_window (a b t : Z) : bool := (a <=? t) && (t <=? b).

(** [df.xs(slice(str(a), str(b)), drop_level=False)]: the rows whose
    timestamp lies in [[a, b]] (label slicing includes both ends). *)
Definition xs_time (a b : Z) (t : PVTable) : PVTable :=
  {| pv_cols := pv_cols t;
     pv_rows := filter (fun r => let '(ts, _, _) := r in in_window a b ts) (pv_rows t) |}.

Fixpoint col_index (c : string) (cols : list string) : option nat :=
  match cols with
  | [] => None
  | c' :: cs => if String.eqb c c' then Some O
                else option_map S (col_index c cs)
  end.

Fixpoint select_values (ix : list nat) (vs : list Z) : list Z :=
  match ix with
  | [] => []
  | i :: ix' => nth i vs 0 :: select_values ix' vs
  end.

Fixpoint col_indices (cs cols : list string) : res (list nat) :=
  match cs with
  | [] => Ok []
  | c :: cs' =>
      match col_index c cols with
      | None => Err KeyError
      | Some i => ix <- col_indices cs' cols ;; Ok (i :: ix)
      end
  end.

(** [df[[c1, c2, ...]]]: [KeyError] when a column is missing. *)
Definition select_cols (cs : list string) (t : PVTable) : res PVObj :=
  ix <- col_indices cs (pv_cols t) ;;
  Ok (Frame cs (map (fun r => let '(ts, s, vs) := r in (ts, s, select_values ix vs))
                    (pv_rows t))).

(** [df["c"]]: a Series, [KeyError] when the column is missing. *)
Definition select_col (c : string) (o : PVObj) : res PVObj :=
  match o with
  | Frame cols rows =>
      match col_index c cols with
      | None => Err KeyError
      | Some i => Ok (Series (map (fun r => let '(ts, s, vs) := r in (ts, s, nth i vs 0)) rows))
      end
  | Series _ => Err KeyError
  end.

Definition frame_of (t : PVTable) : PVObj := Frame (pv_cols t) (pv_rows t).

(** [o.xs(site, level=1).to_numpy()], as the shape of the array:
    [KeyError] when no row has that site. *)
Definition xs_site_shape (site : Z) (o : PVObj) : res (list Z) :=
  match o with
  | Frame cols rows =>
      let n := List.length (filter (fun r => let '(_, s, _) := r in Z.eqb s site) rows) in
      if Nat.eqb n 0 then Err KeyError else Ok [Z.of_nat n; Z.of_nat (List.length cols)]
  | Series rows =>
      let n := List.length (filter (fun r => let '(_, s, _) := r in Z.eqb s site) rows) in
      if Nat.eqb n 0 then Err KeyError else Ok [Z.of_nat n]
  end.

(** [a.squeeze(-1)]: drops the last axis, [ValueError] unless it has size
    one. *)
Definition squeeze_last (shape : list Z) : res (list Z) :=
  match rev shape with
  | 1 :: rest => Ok (rev rest)
  | _ => Err ValueError
  end.

(** Bound of a Python slice [start:stop] on an axis of length [n]. *)
Definition slice_bound (i n : Z) : Z :=
  if i <? 0 then Z.max 0 (i + n) else Z.min i n.

Definition slice_len (n start stop : Z) : Z :=
  Z.max 0 (slice_bound stop n - slice_bound start n).

(** [pd.Timestamp.min] and [pd.Timestamp.max] (nanosecond resolution),
    1677-09-21 00:12:43.145224193 and 2262-04-11 23:47:16.854775807,
    rounded inward to whole minutes. *)
Definition timestamp_min : Z := Eval vm_compute in ymd2ord 1677 9 21 * 1440 + 13.
Definition timestamp_max : Z := Eval vm_compute in ymd2ord 2262 4 11 * 1440 + 23 * 60 + 47.

(** Conversion of a [datetime] to a nanosecond [Timestamp], as
    [pd.date_range] does with its [start] and [end]:
    [OutOfBoundsDatetime] outside that range. *)
Definition to_timestamp (t : Z) : res Z :=
  if (timestamp_min <=? t) && (t <=? timestamp_max) then Ok t else Err OutOfBoundsDatetime.

(** The timestamps of [date_range(start=a, end=b, freq='5min')], once [a]
    and [b] are converted. *)
Definition date_range (a b : Z) : list Z :=
  if b <? a then []
  else map (fun k => a + 5 * Z.of_nat k) (seq 0 (S (Z.to_nat ((b - a) / 5)))).

(** *** [__iter__] *)

(** What the loop body computes for one anchor time before iterating over
    the sites. *)
Record Window := {
  w_time_ids : list string;
  w_pv_features : PVObj;
  w_pv_targets : PVObj;
  w_hrv_shape : list Z       (* shape of [hrv_data] *)
}.

Definition window (ds : Dataset) (time : Z) : res Window :=
  ids_start <- add time 60 ;;
  ids_end0 <- add time (60 * horizon ds) ;;
  ids_end <- add ids_end0 55 ;;
  (* [pd.date_range] converts [start] and [end] to [Timestamp]s; the label
     bounds of the slices below lie between [time] and these two for an
     anchor at 08:00 .. 16:00, so they are in range once these are. *)
  _ <- to_timestamp ids_start ;;
  _ <- to_timestamp ids_end ;;
  let time_ids := map iso_format (date_range ids_start ids_end) in
  first_hour_end <- add time 55 ;;
  let pv_first := xs_time time first_hour_end (pv ds) in
  pv_features <- (if is_incident ds
                  then select_cols ["power"; "angle_of_incidence_radians"]%string pv_first
                  else Ok (frame_of pv_first)) ;;
  targets_start <- add time 60 ;;
  targets_end <- add time (60 * horizon ds + 55) ;;
  let pv_targets0 := frame_of (xs_time targets_start targets_end (pv ds)) in
  pv_targets <- (if is_incident ds then select_col "power"%string pv_targets0 else Ok pv_targets0) ;;
  let nt := Z.of_nat (List.length (filter (in_window time first_hour_end) (hrv_times (hrv ds)))) in
  Ok {| w_time_ids := time_ids; w_pv_features := pv_features; w_pv_targets := pv_targets;
        w_hrv_shape := [nt; hrv_ny (hrv ds); hrv_nx (hrv ds); hrv_nc (hrv ds)] |}.

(** A yielded sample [(time_ids, site_id, site_features, hrv_features,
    site_targets)], arrays given by their shapes. *)
Record Sample := {
  time_ids : list string;
  site_id : Z;
  site_features : list Z;
  hrv_features : list Z;
  site_targets : list Z
}.

Fixpoint lookup_site (site : Z) (locs : Locations) : res (Z * Z) :=
  match locs with
  | [] => Err KeyError
  | (s, xy) :: rest => if Z.eqb s site then Ok xy else lookup_site site rest
  end.

(** Equality of shapes, as tuples ([shape == (12,)]). *)
Fixpoint list_Z_eqb (a b : list Z) : bool :=
  match a, b with
  | [], [] => true
  | x :: a', y :: b' => Z.eqb x y && list_Z_eqb a' b'
  | _, _ => false
  end.

(** [hrv_data[:, y - c : y + c, x - c : x + c, 0]] *)
Definition crop (hrv_shape : list Z) (x y c : Z) : res (list Z) :=
  match hrv_shape with
  | [nt; ny; nx; nc] =>
      if 0 <? nc then Ok [nt; slice_len ny (y - c) (y + c); slice_len nx (x - c) (x + c)]
      else Err IndexError
  | _ => Err IndexError
  end.

(** The body of the [try] block for one site. *)
Definition site_body (ds : Dataset) (w : Window) (site : Z) : res Sample :=
  f0 <- xs_site_shape site (w_pv_features w) ;;
  site_features0 <- squeeze_last f0 ;;
  t0 <- xs_site_shape site (w_pv_targets w) ;;
  site_targets0 <- squeeze_last t0 ;;
  _ <- (if is_incident ds
        then py_assert (list_Z_eqb site_features0 [12; 2]
                        && list_Z_eqb site_targets0 [12 * horizon ds])
        else py_assert (list_Z_eqb site_features0 [12]
                        && list_Z_eqb site_targets0 [12 * horizon ds])) ;;
  xy <- lookup_site site (site_locations ds) ;;
  let '(x, y) := xy in
  hrv_features0 <- crop (w_hrv_shape w) x y (crop_size ds) ;;
  _ <- py_assert (list_Z_eqb hrv_features0 [12; crop_size ds; crop_size ds]) ;;
  Ok {| time_ids := w_time_ids w; site_id := site; site_features := site_features0;
        hrv_features := hrv_features0; site_targets := site_targets0 |}.

(** [try: ... except: continue]: every exception of the body skips the
    site. *)
Definition site_step (ds : Dataset) (w : Window) (site : Z) : option Sample :=
  match site_body ds w site with
  | Ok smp => Some smp
  | Err _ => None
  end.

Fixpoint filter_map {A B} (f : A -> option B) (l : list A) : list B :=
  match l with
  | [] => []
  | a :: l' => match f a with Some b => b :: filter_map f l' | None => filter_map f l' end
  end.


(** The [for time in self._get_image_times()] loop, given the anchors the
    generator yields and how it stops. *)
Fixpoint iter_anchors (ds : Dataset) (anchors : list Z) (st : stop) : gen Sample :=
  match anchors with
  | [] => ([], st)
  | time :: rest =>
      match window ds time with
      | Err e => ([], Raised e)
      | Ok w =>
          let '(smps, st') := iter_anchors ds rest st in
          (filter_map (site_step ds w) (sites ds) ++ smps, st')
      end
  end.

(** [Dataset.__iter__] *)
Definition iter (ds : Dataset) (fuel : nat) : gen Sample :=
  let '(anchors, st) := get_image_times ds fuel in
  iter_anchors ds anchors st.

End Dataset.

(** ** [Resnet_model.py] *)
Module ResNet.

(** The names the module's code looks up as globals and that the file does
    not define: the defaults [pv], [pv_inc], [use_pv_inc] of
    [ResNetModel.forward] (evaluated when the class body runs), [F]
    (used by [BasicBlock.forward]) and [predict_length] (used by
    [ResNetModel.forward]). *)
Record Env := {
  env_defaults : bool;
  env_F : bool;
  env_predict_length : option Z
}.

(** The globals of [Resnet_model.py] itself: none of those names. *)
Definition module_env : Env :=
  {| env_defaults := false; env_F := false; env_predict_length := None |}.

Definition Shape := list Z.

(** A [1x1] [Conv2d] followed by a [BatchNorm2d] (and a [ReLU] when
    [cb_relu]): [conv_block], or the [downsample] projection.  The
    BatchNorm buffers are represented by [num_batches_tracked]. *)
Record ConvBN := {
  cb_in : Z;
  cb_out : Z;
  cb_stride : Z;
  cb_relu : bool;
  num_batches_tracked : Z
}.

Record Block := {
  conv1 : ConvBN;
  conv2 : ConvBN;
  downsample : option ConvBN;
  stride : Z
}.

(** A [ResNetModel]: [training] flag, [initial] (an [nn.Identity]),
    [layer1] .. [layer4] and the regression layer [fc]. *)
Record Model := {
  training : bool;
  layer1 : list Block;
  layer2 : list Block;
  layer3 : list Block;
  layer4 : list Block;
  fc_in_features : Z;
  fc_out_features : Z
}.

(** *** Construction *)

Definition conv_block (in_channels out_channels s : Z) : ConvBN :=
  {| cb_in := in_channels; cb_out := out_channels; cb_stride := s;
     cb_relu := true; num_batches_tracked := 0 |}.

Definition basic_block (in_channels out_channels s : Z) (ds : option ConvBN) : Block :=
  {| conv1 := conv_block in_channels out_channels s;
     conv2 := conv_block out_channels out_channels 1;
     downsample := ds; stride := s |}.

(** [_make_layer], with [self.in_channels] threaded through; [expansion]
    is 1. *)
Definition make_layer (in_channels out_channels num_blocks s : Z) : list Block * Z :=
  let ds := if negb (Z.eqb s 1) || negb (Z.eqb in_channels out_channels)
            then Some {| cb_in := in_channels; cb_out := out_channels; cb_stride := s;
                         cb_relu := false; num_batches_tracked := 0 |}
            else None in
  (basic_block in_channels out_channels s ds
     :: repeat (basic_block out_channels out_channels 1 None) (Z.to_nat (num_blocks - 1)),
   out_channels).

(** Executing the [class ResNetModel] statement: the default values of
    [forward] are looked up, [pv] first. *)
Definition class_def (env : Env) : res unit :=
  if env_defaults env then Ok tt else Err (NameError "pv"%string).

Definition py_index (l : list Z) (i : nat) : res Z :=
  match nth_error l i with Some a => Ok a | None => Err IndexError end.

(** [ResNetModel(BasicBlock, layers, predict_length)] *)
Definition init (env : Env) (layers : list Z) (predict_length : Z) : res Model :=
  _ <- class_def env ;;
  n1 <- py_index layers 0 ;; let '(l1, c1) := make_layer 12 12 n1 1 in
  n2 <- py_index layers 1 ;; let '(l2, c2) := make_layer c1 24 n2 1 in
  n3 <- py_index layers 2 ;; let '(l3, c3) := make_layer c2 48 n3 1 in
  n4 <- py_index layers 3 ;; let '(l4, _) := make_layer c3 96 n4 1 in
  (* [nn.Linear(96 + 12, predict_length)]: allocating the weight of shape
     [(predict_length, 108)] raises [RuntimeError] for a negative size *)
  if predict_length <? 0 then Err RuntimeError else
  Ok {| training := true; layer1 := l1; layer2 := l2; layer3 := l3; layer4 := l4;
        fc_in_features := 96 + 12; fc_out_features := predict_length |}.

(** *** Tensor operations, on shapes *)

(** [nn.Conv2d(in, out, kernel_size=1, stride=s)] on a batched or
    unbatched image. *)
Definition conv2d (cb : ConvBN) (x : Shape) : res Shape :=
  let s := cb_stride cb in
  match x with
  | [n; c; h; w] =>
      if Z.eqb c (cb_in cb) && (0 <? h) && (0 <? w)
      then Ok [n; cb_out cb; (h - 1) / s + 1; (w - 1) / s + 1] else Err RuntimeError
  | [c; h; w] =>
      if Z.eqb c (cb_in cb) && (0 <? h) && (0 <? w)
      then Ok [cb_out cb; (h - 1) / s + 1; (w - 1) / s + 1] else Err RuntimeError
  | _ => Err RuntimeError
  end.

(** [nn.BatchNorm2d(cb_out)]: the input must be 4-D ([ValueError]); in
    training mode [num_batches_tracked] is incremented, and then the batch
    statistics are computed, which needs more than one value per channel
    ([ValueError]) and the right channel count ([RuntimeError]). *)
Definition batch_norm (train : bool) (cb : ConvBN) (x : Shape) : res Shape * ConvBN :=
  match x with
  | [n; c; h; w] =>
      let cb' := if train
                 then {| cb_in := cb_in cb; cb_out := cb_out cb; cb_stride := cb_stride cb;
                         cb_relu := cb_relu cb; num_batches_tracked := num_batches_tracked cb + 1 |}
                 else cb in
      if negb (Z.eqb c (cb_out cb)) then (Err RuntimeError, cb')
      else if train && Z.eqb (n * h * w) 1 then (Err ValueError, cb')
      else (Ok x, cb')
  | _ => (Err ValueError, cb)
  end.

(** [conv_block(...)(x)] (the [ReLU] keeps the shape). *)
Definition conv_bn (train : bool) (cb : ConvBN) (x : Shape) : res Shape * ConvBN :=
  match conv2d cb x with
  | Err e => (Err e, cb)
  | Ok y => batch_norm train cb y
  end.

Fixpoint broadcast_aligned (a b : Shape) : res Shape :=
  match a, b with
  | [], [] => Ok []
  | x :: a', y :: b' =>
      d <- (if Z.eqb x y || Z.eqb y 1 then Ok x else if Z.eqb x 1 then Ok y
            else Err RuntimeError) ;;
      r <- broadcast_aligned a' b' ;; Ok (d :: r)
  | _, _ => Err RuntimeError
  end.

(** [a + b] with broadcasting. *)
Definition broadcast (a b : Shape) : res Shape :=
  let la := List.length a in let lb := List.length b in
  broadcast_aligned (repeat 1 (lb - la) ++ a) (repeat 1 (la - lb) ++ b).

(** [BasicBlock.forward] *)
Definition block_forward (env : Env) (train : bool) (blk : Block) (x : Shape)
    : res Shape * Block :=
  let set1 c := {| conv1 := c; conv2 := conv2 blk; downsample := downsample blk;
                   stride := stride blk |} in
  match conv_bn train (conv1 blk) x with
  | (Err e, c1) => (Err e, set1 c1)
  | (Ok out1, c1) =>
      let set2 c d := {| conv1 := c1; conv2 := c; downsample := d; stride := stride blk |} in
      match conv_bn train (conv2 blk) out1 with
      | (Err e, c2) => (Err e, set2 c2 (downsample blk))
      | (Ok out2, c2) =>
          let '(identity0, d') :=
            match downsample blk with
            | None => (Ok x, None)
            | Some d => let '(r, d') := conv_bn train d x in (r, Some d')
            end in
          let blk' := set2 c2 d' in
          match identity0 with
          | Err e => (Err e, blk')
          | Ok idn =>
              match broadcast out2 idn with
              | Err e => (Err e, blk')
              | Ok out =>
                  (* [F.relu(out, inplace=False)] *)
                  if env_F env then (Ok out, blk') else (Err (NameError "F"%string), blk')
              end
          end
      end
  end.

(** An [nn.Sequential] of blocks. *)
Fixpoint layer_forward (env : Env) (train : bool) (blks : list Block) (x : Shape)
    : res Shape * list Block :=
  match blks with
  | [] => (Ok x, [])
  | b :: rest =>
      match block_forward env train b x with
      | (Err e, b') => (Err e, b' :: rest)
      | (Ok y, b') => let '(r, rest') := layer_forward env train rest y in (r, b' :: rest')
      end
  end.

(** [nn.AdaptiveMaxPool2d((1, 1))] *)
Definition adaptive_pool (x : Shape) : res Shape :=
  match x with
  | [n; c; h; w] => if (0 <? h) && (0 <? w) then Ok [n; c; 1; 1] else Err RuntimeError
  | [c; h; w] => if (0 <? h) && (0 <? w) then Ok [c; 1; 1] else Err RuntimeError
  | _ => Err RuntimeError
  end.

(** [torch.flatten(t, start_dim=1)] *)
Definition flatten1 (t : Shape) : res Shape :=
  match t with
  | d0 :: (_ :: _) as rest => Ok [d0; fold_right Z.mul 1 rest]
  | _ => Err IndexError
  end.

(** [t[:, :, k]] *)
Definition index2 (t : Shape) (k : Z) : res Shape :=
  match t with
  | d0 :: d1 :: d2 :: rest =>
      if (0 <=? k) && (k <? d2) then Ok (d0 :: d1 :: rest) else Err IndexError
  | _ => Err IndexError
  end.

Fixpoint shape_eqb (a b : Shape) : bool :=
  match a, b with
  | [], [] => true
  | x :: a', y :: b' => Z.eqb x y && shape_eqb a' b'
  | _, _ => false
  end.

(** Same rank and same sizes outside dimension 1. *)
Definition same_except1 (a b : Shape) : bool :=
  match a, b with
  | x0 :: _ :: a', y0 :: _ :: b' => Z.eqb x0 y0 && shape_eqb a' b'
  | _, _ => false
  end.

(** [torch.cat(ts, dim=1)] *)
Definition cat1 (t : Shape) (ts : list Shape) : res Shape :=
  match t with
  | d0 :: d1 :: rest =>
      if forallb (same_except1 t) ts
      then Ok (d0 :: fold_left (fun acc u => acc + nth 1 u 0) ts d1 :: rest)
      else Err RuntimeError
  | _ => Err IndexError
  end.

(** [self.fc(combined)] *)
Definition linear (m : Model) (x : Shape) : res Shape :=
  match rev x with
  | d :: rest => if Z.eqb d (fc_in_features m) then Ok (rev (fc_out_features m :: rest))
                 else Err RuntimeError
  | [] => Err RuntimeError
  end.

Definition set_layers (m : Model) (l1 l2 l3 l4 : list Block) : Model :=
  {| training := training m; layer1 := l1; layer2 := l2; layer3 := l3; layer4 := l4;
     fc_in_features := fc_in_features m; fc_out_features := fc_out_features m |}.

Definition set_fc (m : Model) (i o : Z) : Model :=
  {| training := training m; layer1 := layer1 m; layer2 := layer2 m; layer3 := layer3 m;
     layer4 := layer4 m; fc_in_features := i; fc_out_features := o |}.

(** Pooling and the two fusion branches of [ResNetModel.forward]: the
    shape of [combined]. *)
Definition fuse (x pv pv_inc : Shape) (use_pv_inc : bool) : res Shape :=
  x <- adaptive_pool x ;;
  if use_pv_inc then
    power <- index2 pv_inc 0 ;;
    angle <- index2 pv_inc 1 ;;
    cat1 x [power; angle]
  else
    x <- flatten1 x ;;
    pv <- flatten1 pv ;;
    pv <- (if 2 <? Z.of_nat (List.length pv) then flatten1 pv else Ok pv) ;;
    cat1 x [pv].

(** The part of [ResNetModel.forward] after the convolutional stages: the
    regression layer is reallocated when its input width differs from
    [combined.shape[1]]. *)
Definition head (env : Env) (m : Model) (x : Shape) (pv pv_inc : Shape)
    (use_pv_inc : bool) : res Shape * Model :=
  match fuse x pv pv_inc use_pv_inc with
  | Err e => (Err e, m)
  | Ok combined =>
      let width := nth 1 combined 0 in
      if negb (Z.eqb (fc_in_features m) width) then
        match env_predict_length env with
        | None => (Err (NameError "predict_length"%string), m)
        | Some pl =>
            (* [nn.Linear(width, predict_length)] raises [RuntimeError] for a
               negative [predict_length] ([width] is a tensor size) *)
            if pl <? 0 then (Err RuntimeError, m)
            else let m' := set_fc m width pl in (linear m' combined, m')
        end
      else (linear m combined, m)
  end.

(** [ResNetModel.forward(hrv, pv, pv_inc, use_pv_inc)]: the result and the
    model's state afterwards. *)
Definition forward (env : Env) (m : Model) (hrv pv pv_inc : Shape) (use_pv_inc : bool)
    : res Shape * Model :=
  let train := training m in
  (* [self.initial] is [nn.Identity()] *)
  match layer_forward env train (layer1 m) hrv with
  | (Err e, l1) => (Err e, set_layers m l1 (layer2 m) (layer3 m) (layer4 m))
  | (Ok x1, l1) =>
  match layer_forward env train (layer2 m) x1 with
  | (Err e, l2) => (Err e, set_layers m l1 l2 (layer3 m) (layer4 m))
  | (Ok x2, l2) =>
  match layer_forward env train (layer3 m) x2 with
  | (Err e, l3) => (Err e, set_layers m l1 l2 l3 (layer4 m))
  | (Ok x3, l3) =>
  match layer_forward env train (layer4 m) x3 with
  | (Err e, l4) => (Err e, set_layers m l1 l2 l3 l4)
  | (Ok x4, l4) => head env (set_layers m l1 l2 l3 l4) x4 pv pv_inc use_pv_inc
  end end end end.

End ResNet.

(** ** Concrete inputs *)
Module Examples.
Import Dataset.

Definition day0 : Z := Eval vm_compute in
  match PyDatetime.datetime 2020 7 1 with Ok t => t | Err _ => 0 end.

(** 2020-07-01 00:00 .. 23:55 at 5-minute ticks. *)
Definition ticks : list Z := map (fun k => day0 + 5 * Z.of_nat k) (seq 0 288).

Definition site_A : Z := 1.
Definition site_B : Z := 2.

(** A PV table with a single ["power"] column for sites A and B. *)
Definition pv_AB : PVTable :=
  {| pv_cols := ["power"%string];
     pv_rows := flat_map (fun t => [(t, site_A, [0]); (t, site_B, [0])]) ticks |}.

(** An imagery cube over the same ticks on an [ny x nx] grid, one
    channel. *)
Definition hrv_grid (ny nx : Z) : HRV :=
  {| hrv_times := ticks; hrv_ny := ny; hrv_nx := nx; hrv_nc := 1 |}.

Definition dataset (locs : Locations) (ny nx : Z) (inc : bool) (sd ed : string)
    (c h : Z) (sites0 : option (list Z)) : res Dataset :=
  init pv_AB (hrv_grid ny nx) locs inc sd ed c h sites0.

(** Run [__iter__] on a configuration (construction errors give no
    sample). *)
Definition run (d : res Dataset) : gen Sample :=
  match d with Ok ds => iter ds 100 | Err e => ([], Raised e) end.

Definition samples_of (site : Z) (g : gen Sample) : list Sample :=
  filter (fun smp => Z.eqb (site_id smp) site) (fst g).

(** The configuration of the spec's end-to-end example, as the record
    [__init__] builds. *)
Definition ds_AB (locs : Locations) (c h : Z) : Dataset :=
  {| pv := pv_AB; hrv := hrv_grid 3 3; site_locations := locs; is_incident := false;
     sites := map fst locs; start_date := [2020; 7; 1]; end_date := [2020; 7; 1];
     crop_size := c; horizon := h |}.

(** A PV table with the columns ["power"] and
    ["angle_of_incidence_radians"] for sites A and B. *)
Definition pv_inc_AB : PVTable :=
  {| pv_cols := ["power"; "angle_of_incidence_radians"]%string;
     pv_rows := flat_map (fun t => [(t, site_A, [0; 0]); (t, site_B, [0; 0])]) ticks |}.

Definition ds_inc (locs : Locations) (c h : Z) : Dataset :=
  {| pv := pv_inc_AB; hrv := hrv_grid 3 3; site_locations := locs; is_incident := true;
     sites := map fst locs; start_date := [2020; 7; 1]; end_date := [2020; 7; 1];
     crop_size := c; horizon := h |}.

(** The same data with the mode and the parsed dates given. *)
Definition ds_cfg (locs : Locations) (inc : bool) (sd ed : list Z) (c h : Z) : Dataset :=
  {| pv := pv_AB; hrv := hrv_grid 3 3; site_locations := locs; is_incident := inc;
     sites := map fst locs; start_date := sd; end_date := ed;
     crop_size := c; horizon := h |}.

End Examples.

(** ** The anchor enumeration the spec describes *)
Module Reference.

(** [n] consecutive days from ordinal [D], each with the anchors 08:00,
    09:00, ..., 16:00, in that order. *)
Fixpoint anchors_from (D : Z) (n : nat) : list Z :=
  match n with
  | O => []
  | S k => map (fun i => D * 1440 + 60 * Z.of_nat i) (seq 8 9) ++ anchors_from (D + 1) k
  end.

End Reference.

(** Environments in which more of the missing globals are bound: the
    defaults of [forward] only, and in addition [F] and [predict_length]. *)
Definition env_defaults_only : ResNet.Env :=
  {| ResNet.env_defaults := true; ResNet.env_F := false; ResNet.env_predict_length := None |}.

Definition env_all_bound (pl : Z) : ResNet.Env :=
  {| ResNet.env_defaults := true; ResNet.env_F := true; ResNet.env_predict_length := Some pl |}.

(** How the anchor enumeration ends after the day ordinal [E]: normally,
    unless [E] is the last ordinal [datetime] supports. *)
Definition final_stop (E : Z) : stop :=
  if E <? PyDatetime.MAXORDINAL then Done else Raised OverflowError.

(** The BatchNorm layers of a block and of a model, in the order
    [forward] runs them: [conv1], [conv2], then the [downsample]
    projection, block after block, [layer1] to [layer4]. *)
Definition block_bns (b : ResNet.Block) : list ResNet.ConvBN :=
  ResNet.conv1 b :: ResNet.conv2 b
  :: match ResNet.downsample b with Some d => [d] | None => [] end.

Definition model_bns (m : ResNet.Model) : list ResNet.ConvBN :=
  flat_map block_bns (ResNet.layer1 m ++ ResNet.layer2 m ++ ResNet.layer3 m ++ ResNet.layer4 m).

(** A BatchNorm's batch counter after a call: unchanged, or one more. *)
Definition step01 (c c' : ResNet.ConvBN) : Prop :=
  ResNet.num_batches_tracked c' = ResNet.num_batches_tracked c
  \/ ResNet.num_batches_tracked c' = ResNet.num_batches_tracked c + 1.

(** * Properties *)

Import Dataset.

(** ** Concrete runs of [__iter__] *)

(** C4 (code_bug): on the end-to-end example of the spec (sites A and B
    over 2020-07-01 at 5-minute ticks, a 3x3 grid, A at pixel (1,1), B at
    (5,5), [crop_size=1], [horizon=1], start and end "2020-7-1"), the
    iterator yields no sample at all, not 9 samples for A: A's crop
    [hrv_data[:, 0:2, 0:2, 0]] has shape (12,2,2) and fails the assertion
    against (12,1,1).  The same holds on a 2x2 grid. *)
Theorem spec_example_yields_no_sample :
  Examples.run (Examples.dataset [(Examples.site_A, (1, 1)); (Examples.site_B, (5, 5))]
                  3 3 false "2020-7-1" "2020-7-1" 1 1 None) = ([], Done)
  /\ Examples.run (Examples.dataset [(Examples.site_A, (1, 1)); (Examples.site_B, (5, 5))]
                  2 2 false "2020-7-1" "2020-7-1" 1 1 None) = ([], Done).
Proof. split; vm_compute; reflexivity. Qed.

(** C3 (code_bug): with a 3x3 grid, [crop_size=1] and a site at pixel
    (3,3), the iterator yields 9 samples whose [hrv_features] has shape
    (12,1,1): the crop is neither (2c+1)x(2c+1) nor 2c x 2c. *)
Theorem yielded_crop_is_c_by_c :
  let g := Examples.run (Examples.dataset [(Examples.site_A, (3, 3))]
                           3 3 false "2020-7-1" "2020-7-1" 1 1 None) in
  List.length (fst g) = 9%nat
  /\ Forall (fun smp => hrv_features smp = [12; 1; 1]) (fst g).
Proof. vm_compute. split; [reflexivity | repeat constructor]. Qed.

(** C6 (code_bug): on a 2x2 grid with [crop_size=2], the site at the
    corner pixel (0,0) (within [crop_size] of the edge) is yielded at every
    one of the 9 anchors of the day. *)
Theorem edge_site_is_yielded :
  List.length (Examples.samples_of Examples.site_A
     (Examples.run (Examples.dataset [(Examples.site_A, (0, 0))]
                      2 2 false "2020-7-1" "2020-7-1" 2 1 None))) = 9%nat.
Proof. vm_compute. reflexivity. Qed.

(** ** Generic lemmas *)

Lemma res_bind_ok {A B} (r : res A) (k : A -> res B) (b : B) :
  res_bind r k = Ok b -> exists a, r = Ok a /\ k a = Ok b.
Proof. destruct r; simpl; [eauto | discriminate]. Qed.

Lemma list_Z_eqb_true (a b : list Z) : list_Z_eqb a b = true -> a = b.
Proof.
  revert b; induction a as [|x a IH]; intros [|y b]; simpl; try discriminate; auto.
  intros H; apply andb_prop in H as [H1 H2].
  apply Z.eqb_eq in H1; subst; f_equal; auto.
Qed.

Lemma filter_map_In {A B} (f : A -> option B) (l : list A) (b : B) :
  In b (filter_map f l) <-> exists a, In a l /\ f a = Some b.
Proof.
  induction l as [|a l IH]; simpl.
  - split; [contradiction | intros (? & [] & _)].
  - destruct (f a) as [b'|] eqn:Ef; simpl.
    + split.
      * intros [<-|H]; [eauto | apply IH in H as (a' & ? & ?); eauto].
      * intros (a' & [<-|Hin] & Hf); [left; congruence | right; apply IH; eauto].
    + rewrite IH; split.
      * intros (a' & ? & ?); eauto.
      * intros (a' & [<-|Hin] & Hf); [congruence | eauto].
Qed.

Lemma add_ok (t d r : Z) : PyDatetime.add t d = Ok r -> r = t + d.
Proof. unfold PyDatetime.add; destruct (PyDatetime.valid (t + d)); congruence. Qed.

(** Peel the binds of a successful computation into equations. *)
Ltac peel H :=
  repeat match type of H with
  | res_bind ?r _ = Ok _ =>
      let E := fresh "E" in
      destruct r eqn:E; cbn [res_bind] in H; [|discriminate]
  end.

(** ** The per-site block *)

(** A successful body produces a sample whose shapes are exactly the ones
    its assertions test. *)
Lemma site_body_shapes (ds : Dataset) (w : Window) (site : Z) (smp : Sample) :
  site_body ds w site = Ok smp ->
  time_ids smp = w_time_ids w /\ site_id smp = site
  /\ site_features smp = (if is_incident ds then [12; 2] else [12])
  /\ site_targets smp = [12 * horizon ds]
  /\ hrv_features smp = [12; crop_size ds; crop_size ds].
Proof.
  unfold site_body; intros H.
  peel H.
  destruct a4 as [x y]; peel H.
  unfold py_assert in E3, E6.
  destruct (list_Z_eqb a4 _) eqn:Ec in E6; [|discriminate].
  apply list_Z_eqb_true in Ec.
  injection H as <-; cbn [time_ids site_id site_features hrv_features site_targets].
  destruct (is_incident ds);
    match type of E3 with (if ?b then _ else _) = _ => destruct b eqn:Eb end;
    try discriminate;
    apply andb_prop in Eb as [Ef Et]; apply list_Z_eqb_true in Ef, Et;
    repeat split; congruence.
Qed.

Lemma iter_anchors_sample (ds : Dataset) (anchors : list Z) (st : stop) (smp : Sample) :
  In smp (fst (iter_anchors ds anchors st)) ->
  exists time w site, In time anchors /\ window ds time = Ok w
    /\ In site (sites ds) /\ site_body ds w site = Ok smp.
Proof.
  induction anchors as [|t rest IH]; simpl; [contradiction|].
  destruct (window ds t) as [w|e] eqn:Ew; simpl; [|contradiction].
  destruct (iter_anchors ds rest st) as [smps st'] eqn:Er; simpl.
  intros Hin; apply in_app_or in Hin as [Hin|Hin].
  - apply filter_map_In in Hin as (site & Hs & Hst).
    unfold site_step in Hst; destruct (site_body ds w site) eqn:Eb; [|discriminate].
    injection Hst as ->; exists t, w, site; auto.
  - destruct (IH Hin) as (t' & w' & s' & ? & ? & ? & ?).
    exists t', w', s'; auto.
Qed.




(** Once some anchor's window fails, how the enumeration would stop after
    the anchors no longer matters. *)
Lemma iter_anchors_stop_irrelevant (ds : Dataset) (anchors : list Z) (st st' : stop)
    (time : Z) (e : PyErr) :
  In time anchors -> window ds time = Err e ->
  iter_anchors ds anchors st = iter_anchors ds anchors st'.
Proof.
  induction anchors as [|t rest IH]; intros Hin He; [contradiction|].
  cbn [iter_anchors].
  destruct (window ds t) as [w|e'] eqn:Ew; [|reflexivity].
  destruct Hin as [->|Hin]; [congruence|].
  rewrite (IH Hin He); reflexivity.
Qed.

(** ** The per-anchor window *)

Lemma window_time_ids (ds : Dataset) (time : Z) (w : Window) :
  window ds time = Ok w ->
  w_time_ids w = map PyDatetime.iso_format
                   (date_range (time + 60) (time + 60 * horizon ds + 55)).
Proof.
  unfold window; intros H; peel H.
  apply add_ok in E, E0, E1; subst.
  injection H as <-; reflexivity.
Qed.

Lemma date_range_length (a h : Z) :
  0 <= h -> List.length (date_range (a + 60) (a + 60 * h + 55)) = Z.to_nat (12 * h).
Proof.
  intros Hh; unfold date_range.
  destruct (Z.eq_dec h 0) as [->|Hne].
  - replace (a + 60 * 0 + 55 <? a + 60) with true by (symmetry; apply Z.ltb_lt; lia).
    reflexivity.
  - replace (a + 60 * h + 55 <? a + 60) with false by (symmetry; apply Z.ltb_ge; lia).
    rewrite length_map, length_seq.
    replace (a + 60 * h + 55 - (a + 60)) with ((12 * h - 1) * 5) by ring.
    rewrite Z.div_mul by lia; lia.
Qed.

(** ** C1: the failure policy of [__iter__] *)




(** ** C5: labels and targets *)

(** C5: for a (non-negative) horizon, the label sequence computed at an
    anchor has [12 * horizon] timestamps and every sample yielded at that
    anchor carries that label sequence and a target of shape
    [(12 * horizon,)]; hence every yielded sample's label sequence and
    target have the same tick count. *)
Theorem labels_match_targets (ds : Dataset) :
  0 <= horizon ds ->
  (forall time w, window ds time = Ok w ->
     List.length (w_time_ids w) = Z.to_nat (12 * horizon ds)
     /\ forall site smp, site_step ds w site = Some smp ->
          time_ids smp = w_time_ids w /\ site_targets smp = [12 * horizon ds])
  /\ (forall fuel smp, In smp (fst (iter ds fuel)) ->
        List.length (time_ids smp) = Z.to_nat (12 * horizon ds)
        /\ site_targets smp = [12 * horizon ds]).
Proof.
  intros Hh.
  assert (Hw : forall time w, window ds time = Ok w ->
     List.length (w_time_ids w) = Z.to_nat (12 * horizon ds)).
  { intros time w Ew; rewrite (window_time_ids _ _ _ Ew), length_map.
    apply date_range_length; exact Hh. }
  split.
  - intros time w Ew; split; [exact (Hw time w Ew)|].
    intros site smp Hs; unfold site_step in Hs.
    destruct (site_body ds w site) eqn:Eb; [|discriminate].
    injection Hs as <-; apply site_body_shapes in Eb; tauto.
  - intros fuel smp Hin.
    unfold iter in Hin; destruct (get_image_times ds fuel) as [anchors st].
    apply iter_anchors_sample in Hin as (time & w & site & _ & Ew & _ & Eb).
    apply site_body_shapes in Eb as (Ht & _ & _ & Htg & _).
    rewrite Ht; split; [exact (Hw time w Ew)|exact Htg].
Qed.

Lemma labels_match_targets_witness :
  let ds := Examples.ds_AB [(Examples.site_A, (3, 3))] 1 2 in
  Forall (fun smp => List.length (time_ids smp) = Z.to_nat (12 * 2)
                      /\ site_targets smp = [12 * 2]) (fst (iter ds 100%nat)).
Proof.
  intros ds.
  apply Forall_forall; intros smp.
  apply (proj2 (labels_match_targets ds ltac:(vm_compute; discriminate)) 100%nat).
Defined.

(** ** C2: the anchor enumeration *)

Lemma dbm_bounds (y m : Z) :
  1 <= m <= 12 ->
  0 <= PyDatetime.days_before_month y m
  /\ PyDatetime.days_before_month y m + PyDatetime.days_in_month y m
     <= 365 + (if PyDatetime.is_leap y then 1 else 0).
Proof.
  intros Hm.
  assert (m = 1 \/ m = 2 \/ m = 3 \/ m = 4 \/ m = 5 \/ m = 6 \/ m = 7 \/ m = 8
          \/ m = 9 \/ m = 10 \/ m = 11 \/ m = 12) as Hc by lia.
  unfold PyDatetime.days_before_month, PyDatetime.days_in_month,
    PyDatetime.days_before_month_tbl.
  repeat destruct Hc as [->|Hc]; subst; destruct (PyDatetime.is_leap y); simpl; lia.
Qed.

(** A [datetime] built from a valid date is midnight of an ordinal in
    [[1, MAXORDINAL]]. *)
Lemma datetime_ok (y m d t : Z) :
  PyDatetime.datetime y m d = Ok t ->
  t = PyDatetime.ymd2ord y m d * 1440
  /\ 1 <= PyDatetime.ymd2ord y m d <= PyDatetime.MAXORDINAL.
Proof.
  unfold PyDatetime.datetime.
  destruct (_ && _) eqn:Hv; [|discriminate]; intros H; injection H as <-.
  repeat rewrite andb_true_iff in Hv; repeat rewrite Z.leb_le in Hv.
  unfold PyDatetime.MINYEAR, PyDatetime.MAXYEAR in Hv.
  destruct Hv as [[[[[Hy1 Hy2] Hm1] Hm2] Hd1] Hd2].
  split; [reflexivity|].
  destruct (dbm_bounds y m (conj Hm1 Hm2)) as [Hb1 Hb2].
  unfold PyDatetime.ymd2ord, PyDatetime.MAXORDINAL.
  assert (0 <= PyDatetime.days_before_year y).
  { unfold PyDatetime.days_before_year; Z.to_euclidean_division_equations; lia. }
  split; [lia|].
  destruct (Z.eq_dec y 9999) as [->|Hy].
  - change (365 + (if PyDatetime.is_leap 9999 then 1 else 0)) with 365 in Hb2.
    change (PyDatetime.days_before_year 9999) with 3651694; lia.
  - assert (PyDatetime.days_before_year y <= 3651329).
    { unfold PyDatetime.days_before_year; Z.to_euclidean_division_equations; lia. }
    destruct (PyDatetime.is_leap y); lia.
Qed.

(** The inner loop run from hour [h] of day [D]. *)
Lemma hours_loop_from (D : Z) (n : nat) :
  1 <= D <= PyDatetime.MAXORDINAL ->
  forall h fuel, (h + n = 17)%nat -> (S n <= fuel)%nat ->
  hours_loop fuel (D * 1440 + 60 * Z.of_nat h)
  = (map (fun i => D * 1440 + 60 * Z.of_nat i) (seq h n), Done).
Proof.
  intros HD; induction n as [|n IH]; intros h fuel Hh Hf;
    (destruct fuel as [|fuel]; [lia|]); cbn [hours_loop].
  - assert (PyDatetime.time_of (D * 1440 + 60 * Z.of_nat h) = 1020) as ->.
    { unfold PyDatetime.time_of; Z.to_euclidean_division_equations; lia. }
    reflexivity.
  - assert (PyDatetime.time_of (D * 1440 + 60 * Z.of_nat h) = 60 * Z.of_nat h) as ->.
    { unfold PyDatetime.time_of; Z.to_euclidean_division_equations; lia. }
    replace (60 * Z.of_nat h <? 17 * 60) with true by (symmetry; apply Z.ltb_lt; lia).
    unfold PyDatetime.add, PyDatetime.valid.
    assert ((D * 1440 + 60 * Z.of_nat h + 60) / 1440 = D) as ->.
    { Z.to_euclidean_division_equations; lia. }
    replace ((1 <=? D) && (D <=? PyDatetime.MAXORDINAL)) with true
      by (symmetry; apply andb_true_iff; split; apply Z.leb_le; lia).
    replace (D * 1440 + 60 * Z.of_nat h + 60) with (D * 1440 + 60 * Z.of_nat (S h)) by lia.
    rewrite (IH (S h) fuel) by lia; reflexivity.
Qed.

(** The outer loop from day [D] to day [E = D + n]. *)
Lemma days_loop_from (n : nat) :
  forall D E fuel, 1 <= D -> E = D + Z.of_nat n -> E <= PyDatetime.MAXORDINAL ->
  (S n + 10 <= fuel)%nat ->
  days_loop fuel (D * 1440) (E * 1440) = (Reference.anchors_from D (S n), final_stop E).
Proof.
  induction n as [|n IH]; intros D E fuel HD HE HM Hf;
    (destruct fuel as [|fuel]; [lia|]); cbn [days_loop].
  - replace (D * 1440 <=? E * 1440) with true by (symmetry; apply Z.leb_le; lia).
    assert (PyDatetime.combine (D * 1440) 8 = D * 1440 + 60 * Z.of_nat 8) as ->.
    { unfold PyDatetime.combine; rewrite Z.div_mul by lia; reflexivity. }
    rewrite (hours_loop_from D 9) by lia.
    unfold PyDatetime.add, PyDatetime.valid, final_stop.
    assert ((D * 1440 + 1440) / 1440 = D + 1) as ->.
    { Z.to_euclidean_division_equations; lia. }
    unfold PyDatetime.MAXORDINAL in *.
    destruct (Z.eq_dec E 3652059) as [HEq|HNe].
    + replace ((1 <=? D + 1) && (D + 1 <=? 3652059)) with false
        by (symmetry; apply andb_false_iff; right; apply Z.leb_gt; lia).
      replace (E <? 3652059) with false by (symmetry; apply Z.ltb_ge; lia).
      cbn [Reference.anchors_from]; rewrite app_nil_r; reflexivity.
    + replace ((1 <=? D + 1) && (D + 1 <=? 3652059)) with true
        by (symmetry; apply andb_true_iff; split; apply Z.leb_le; lia).
      replace (E <? 3652059) with true by (symmetry; apply Z.ltb_lt; lia).
      destruct fuel as [|fuel]; [lia|]; cbn [days_loop].
      replace (D * 1440 + 1440 <=? E * 1440) with false by (symmetry; apply Z.leb_gt; lia).
      cbn [Reference.anchors_from]; rewrite app_nil_r; reflexivity.
  - replace (D * 1440 <=? E * 1440) with true by (symmetry; apply Z.leb_le; lia).
    assert (PyDatetime.combine (D * 1440) 8 = D * 1440 + 60 * Z.of_nat 8) as ->.
    { unfold PyDatetime.combine; rewrite Z.div_mul by lia; reflexivity. }
    rewrite (hours_loop_from D 9) by (unfold PyDatetime.MAXORDINAL in *; lia).
    unfold PyDatetime.add at 1, PyDatetime.valid.
    assert ((D * 1440 + 1440) / 1440 = D + 1) as ->.
    { Z.to_euclidean_division_equations; lia. }
    unfold PyDatetime.MAXORDINAL in HM.
    replace ((1 <=? D + 1) && (D + 1 <=? PyDatetime.MAXORDINAL)) with true
      by (symmetry; apply andb_true_iff; split; apply Z.leb_le;
          unfold PyDatetime.MAXORDINAL; lia).
    replace (D * 1440 + 1440) with ((D + 1) * 1440) by ring.
    rewrite (IH (D + 1) E fuel) by (unfold PyDatetime.MAXORDINAL; lia).
    reflexivity.
Qed.

Lemma anchors_from_length (D : Z) (n : nat) :
  List.length (Reference.anchors_from D n) = (9 * n)%nat.
Proof.
  revert D; induction n as [|n IH]; intros D; cbn [Reference.anchors_from]; [reflexivity|].
  rewrite length_app, length_map, IH; simpl; lia.
Qed.

Lemma anchors_from_bounds (D : Z) (n : nat) (x : Z) :
  In x (Reference.anchors_from D n) -> D * 1440 <= x < (D + Z.of_nat n) * 1440.
Proof.
  revert D; induction n as [|n IH]; intros D; cbn [Reference.anchors_from]; [contradiction|].
  intros Hx; apply in_app_or in Hx as [Hx|Hx].
  - apply in_map_iff in Hx as (i & <- & Hi); apply in_seq in Hi; lia.
  - apply IH in Hx; lia.
Qed.

Lemma StronglySorted_app (l1 l2 : list Z) :
  StronglySorted Z.lt l1 -> StronglySorted Z.lt l2 ->
  (forall x y, In x l1 -> In y l2 -> x < y) -> StronglySorted Z.lt (l1 ++ l2).
Proof.
  induction l1 as [|a l1 IH]; simpl; intros H1 H2 H12; [exact H2|].
  inversion H1 as [|? ? Hs Hf]; subst.
  constructor.
  - apply IH; auto.
  - apply Forall_app; split; [exact Hf|].
    apply Forall_forall; intros y Hy; apply H12; auto.
Qed.

Lemma hours_sorted (D : Z) (k : nat) :
  forall h, StronglySorted Z.lt (map (fun i => D * 1440 + 60 * Z.of_nat i) (seq h k)).
Proof.
  induction k as [|k IH]; intros h; cbn [seq map]; constructor; [apply IH|].
  apply Forall_forall; intros y Hy.
  apply in_map_iff in Hy as (i & <- & Hi); apply in_seq in Hi; lia.
Qed.

Lemma anchors_from_sorted (D : Z) (n : nat) :
  StronglySorted Z.lt (Reference.anchors_from D n).
Proof.
  revert D; induction n as [|n IH]; intros D; cbn [Reference.anchors_from]; [constructor|].
  apply StronglySorted_app; [apply hours_sorted | apply IH|].
  intros x y Hx Hy.
  apply in_map_iff in Hx as (i & <- & Hi); apply in_seq in Hi.
  apply anchors_from_bounds in Hy; lia.
Qed.

(** The first anchor of the last day enumerated. *)
Lemma anchors_from_last (n : nat) :
  forall D, In ((D + Z.of_nat n) * 1440 + 480) (Reference.anchors_from D (S n)).
Proof.
  induction n as [|n IH]; intros D; cbn [Reference.anchors_from].
  - apply in_or_app; left; left; cbn; lia.
  - apply in_or_app; right.
    replace (D + Z.of_nat (S n)) with (D + 1 + Z.of_nat n) by lia.
    apply IH.
Qed.

(** An anchor whose label range starts after [pd.Timestamp.max] has no
    window: [pd.date_range] (or an earlier [timedelta] addition) raises. *)
Lemma window_past_timestamp_max (ds : Dataset) (time : Z) :
  timestamp_max < time + 60 -> exists e, window ds time = Err e.
Proof.
  intros Ht; unfold window.
  destruct (PyDatetime.add time 60) as [a|e] eqn:E1; cbn [res_bind]; [|eexists; reflexivity].
  apply add_ok in E1; subst a.
  destruct (PyDatetime.add time (60 * horizon ds)) as [b|e]; cbn [res_bind];
    [|eexists; reflexivity].
  destruct (PyDatetime.add b 55) as [c|e]; cbn [res_bind]; [|eexists; reflexivity].
  unfold to_timestamp at 1.
  replace (time + 60 <=? timestamp_max) with false by (symmetry; apply Z.leb_gt; lia).
  rewrite andb_false_r; eexists; reflexivity.
Qed.

(** C2: for valid calendar dates [start_date <= end_date], the
    enumeration yields, in strictly increasing order, the anchors 08:00,
    09:00, ..., 16:00 of each day from [start_date] to [end_date], that is
    [9 * (end - start + 1)] anchors (enough fuel being given to the
    embedding of the loops).  On its own the generator then returns
    normally, except at the last date [datetime] supports, 9999-12-31,
    where advancing the date raises [OverflowError]; [__iter__], its only
    consumer, never asks for that step (the label range of the first
    anchor of 9999-12-31 is past [pd.Timestamp.max]), so the iterator runs
    exactly as if the enumeration returned normally after its anchors. *)
Theorem anchor_enumeration (ds : Dataset) (y1 m1 d1 y2 m2 d2 t1 t2 : Z)
    (r1 r2 : list Z) (fuel : nat) :
  start_date ds = y1 :: m1 :: d1 :: r1 ->
  end_date ds = y2 :: m2 :: d2 :: r2 ->
  PyDatetime.datetime y1 m1 d1 = Ok t1 ->
  PyDatetime.datetime y2 m2 d2 = Ok t2 ->
  PyDatetime.ymd2ord y1 m1 d1 <= PyDatetime.ymd2ord y2 m2 d2 ->
  let days := Z.to_nat (PyDatetime.ymd2ord y2 m2 d2 - PyDatetime.ymd2ord y1 m1 d1 + 1) in
  (days + 10 <= fuel)%nat ->
  fst (get_image_times ds fuel) = Reference.anchors_from (PyDatetime.ymd2ord y1 m1 d1) days
  /\ List.length (fst (get_image_times ds fuel)) = (9 * days)%nat
  /\ Sorted Z.lt (fst (get_image_times ds fuel))
  /\ snd (get_image_times ds fuel)
     = (if PyDatetime.ymd2ord y2 m2 d2 <? PyDatetime.MAXORDINAL
        then Done else Raised OverflowError)
  /\ iter ds fuel = iter_anchors ds (fst (get_image_times ds fuel)) Done.
Proof.
  intros Hs He Ht1 Ht2 Hle days Hf.
  pose proof (datetime_ok _ _ _ _ Ht1) as [-> Hr1].
  pose proof (datetime_ok _ _ _ _ Ht2) as [-> Hr2].
  set (o1 := PyDatetime.ymd2ord y1 m1 d1) in *.
  set (o2 := PyDatetime.ymd2ord y2 m2 d2) in *.
  assert (Hg : get_image_times ds fuel
               = (Reference.anchors_from o1 (S (Z.to_nat (o2 - o1))), final_stop o2)).
  { unfold get_image_times; rewrite Hs, He; cbn [py_index nth_error res_bind].
    rewrite Ht1, Ht2.
    apply days_loop_from; [lia | lia | lia |].
    subst days; lia. }
  replace days with (S (Z.to_nat (o2 - o1))) by (subst days; lia).
  unfold iter; rewrite Hg; cbn [fst snd].
  split; [reflexivity|].
  split; [apply anchors_from_length|].
  split; [apply StronglySorted_Sorted, anchors_from_sorted|].
  split; [reflexivity|].
  unfold final_stop; destruct (o2 <? PyDatetime.MAXORDINAL) eqn:Eo; [reflexivity|].
  apply Z.ltb_ge in Eo; unfold PyDatetime.MAXORDINAL in *.
  pose proof (anchors_from_last (Z.to_nat (o2 - o1)) o1) as Hin.
  destruct (window_past_timestamp_max ds ((o1 + Z.of_nat (Z.to_nat (o2 - o1))) * 1440 + 480))
    as [e He'].
  { unfold timestamp_max; lia. }
  exact (iter_anchors_stop_irrelevant _ _ _ _ _ _ Hin He').
Qed.

(** Witness: the day of the spec's example, and the last day [datetime]
    supports. *)
Lemma anchor_enumeration_witness :
  (let ds := Examples.ds_AB [] 1 1 in
   fst (get_image_times ds 20) = Reference.anchors_from (PyDatetime.ymd2ord 2020 7 1) 1
   /\ List.length (fst (get_image_times ds 20)) = 9%nat
   /\ Sorted Z.lt (fst (get_image_times ds 20))
   /\ snd (get_image_times ds 20) = Done
   /\ iter ds 20 = iter_anchors ds (fst (get_image_times ds 20)) Done)
  /\ (let ds := Examples.ds_cfg [(Examples.site_A, (1, 1))] false [9999; 12; 31]
                   [9999; 12; 31] 1 1 in
      fst (get_image_times ds 20) = Reference.anchors_from (PyDatetime.ymd2ord 9999 12 31) 1
      /\ List.length (fst (get_image_times ds 20)) = 9%nat
      /\ Sorted Z.lt (fst (get_image_times ds 20))
      /\ snd (get_image_times ds 20) = Raised OverflowError
      /\ iter ds 20 = iter_anchors ds (fst (get_image_times ds 20)) Done).
Proof.
  split.
  - intros ds.
    exact (anchor_enumeration ds 2020 7 1 2020 7 1 _ _ [] [] 20
             eq_refl eq_refl eq_refl eq_refl ltac:(vm_compute; discriminate)
             ltac:(vm_compute; lia)).
  - intros ds.
    exact (anchor_enumeration ds 9999 12 31 9999 12 31 _ _ [] [] 20
             eq_refl eq_refl eq_refl eq_refl ltac:(vm_compute; discriminate)
             ltac:(vm_compute; lia)).
Defined.

(** ** C7 and C10: construction *)

Lemma lookup_site_in (site : Z) (locs : Locations) (xy : Z * Z) :
  lookup_site site locs = Ok xy -> In site (map fst locs).
Proof.
  induction locs as [|[s v] locs IH]; simpl; [discriminate|].
  destruct (Z.eqb_spec s site); [intros _; left; assumption|intros H; right; auto].
Qed.

Lemma site_body_lookup (ds : Dataset) (w : Window) (site : Z) (smp : Sample) :
  site_body ds w site = Ok smp -> In site (map fst (site_locations ds)).
Proof.
  unfold site_body; intros H; peel H.
  exact (lookup_site_in _ _ _ E4).
Qed.




(** C10: an empty list of sites is treated as no list: both select every
    key of [site_locations["hrv"]], in the map's order. *)
Theorem empty_sites_selects_all (pv0 : PVTable) (hrv0 : HRV) (locs : Locations)
    (inc : bool) (sd ed : string) (c h : Z) :
  init pv0 hrv0 locs inc sd ed c h (Some []) = init pv0 hrv0 locs inc sd ed c h None
  /\ match init pv0 hrv0 locs inc sd ed c h None with
     | Ok ds => sites ds = map fst locs
     | Err _ => True
     end.
Proof.
  split; [reflexivity|].
  unfold init; destruct (parse_date sd); cbn [res_bind]; [|exact I].
  destruct (parse_date ed); cbn [res_bind]; [reflexivity|exact I].
Qed.

(** ** C8 and C9: the ResNet model *)

(** C8 (code bug): with the module's own globals, executing the class
    statement of [ResNetModel] already raises [NameError] (the defaults
    [pv], [pv_inc], [use_pv_inc] are undefined), so no model can be built,
    whatever the layer counts; with those defaults supplied, the first
    residual block raises [NameError] on [F], which is never imported; the
    documented output [(batch, predict_length)] only comes out once [F] and
    [predict_length] are bound as well. *)
Theorem resnet_forward_raises_name_error (layers : list Z) (pl : Z) :
  ResNet.init ResNet.module_env layers pl = Err (NameError "pv"%string)
  /\ match ResNet.init env_defaults_only [4; 4; 4; 4] 48 with
     | Ok m => fst (ResNet.forward env_defaults_only m [4; 12; 3; 3] [4; 12] [] false)
               = Err (NameError "F"%string)
     | Err _ => False
     end
  /\ match ResNet.init (env_all_bound 48) [4; 4; 4; 4] 48 with
     | Ok m => fst (ResNet.forward (env_all_bound 48) m [4; 12; 3; 3] [4; 12] [] false)
               = Ok [4; 48]
     | Err _ => False
     end.
Proof. split; [reflexivity|]. vm_compute. split; reflexivity. Qed.

Ltac case_match :=
  match goal with |- context [match ?x with _ => _ end] => destruct x eqn:? end.

Lemma block_forward_conv1 (env : ResNet.Env) (train : bool) (b : ResNet.Block)
    (x y : ResNet.Shape) :
  ResNet.conv2d (ResNet.conv1 b) x = Ok y ->
  ResNet.conv1 (snd (ResNet.block_forward env train b x))
  = snd (ResNet.batch_norm train (ResNet.conv1 b) y).
Proof.
  intros Hc; unfold ResNet.block_forward.
  unfold ResNet.conv_bn at 1; rewrite Hc.
  destruct (ResNet.batch_norm train (ResNet.conv1 b) y) as [[o1|e] c1]; [|reflexivity].
  cbn [snd]; repeat case_match; reflexivity.
Qed.

Lemma layer_forward_head (env : ResNet.Env) (train : bool) (b : ResNet.Block)
    (rest : list ResNet.Block) (x : ResNet.Shape) :
  hd_error (snd (ResNet.layer_forward env train (b :: rest) x))
  = Some (snd (ResNet.block_forward env train b x)).
Proof.
  cbn [ResNet.layer_forward].
  destruct (ResNet.block_forward env train b x) as [[y|e] b']; [|reflexivity].
  destruct (ResNet.layer_forward env train rest y); reflexivity.
Qed.

Lemma head_layer1 (env : ResNet.Env) (m : ResNet.Model) (x pv pv_inc : ResNet.Shape)
    (u : bool) :
  ResNet.layer1 (snd (ResNet.head env m x pv pv_inc u)) = ResNet.layer1 m.
Proof. unfold ResNet.head; repeat case_match; reflexivity. Qed.

Lemma forward_layer1 (env : ResNet.Env) (m : ResNet.Model) (hrv pv pv_inc : ResNet.Shape)
    (u : bool) :
  ResNet.layer1 (snd (ResNet.forward env m hrv pv pv_inc u))
  = snd (ResNet.layer_forward env (ResNet.training m) (ResNet.layer1 m) hrv).
Proof.
  unfold ResNet.forward.
  destruct (ResNet.layer_forward env (ResNet.training m) (ResNet.layer1 m) hrv)
    as [[x1|e] l1]; [|reflexivity].
  destruct (ResNet.layer_forward env _ (ResNet.layer2 m) x1) as [[x2|e] l2]; [|reflexivity].
  destruct (ResNet.layer_forward env _ (ResNet.layer3 m) x2) as [[x3|e] l3]; [|reflexivity].
  destruct (ResNet.layer_forward env _ (ResNet.layer4 m) x3) as [[x4|e] l4]; [|reflexivity].
  rewrite head_layer1; reflexivity.
Qed.

Lemma head_frame (env : ResNet.Env) (m : ResNet.Model) (x pv pv_inc : ResNet.Shape)
    (u : bool) :
  let m' := snd (ResNet.head env m x pv pv_inc u) in
  ResNet.training m' = ResNet.training m /\ ResNet.layer1 m' = ResNet.layer1 m
  /\ ResNet.layer2 m' = ResNet.layer2 m /\ ResNet.layer3 m' = ResNet.layer3 m
  /\ ResNet.layer4 m' = ResNet.layer4 m.
Proof. unfold ResNet.head; repeat case_match; repeat split. Qed.

(** What construction builds, once it succeeds. *)
Lemma init_model (env : ResNet.Env) (layers : list Z) (pl : Z) (m : ResNet.Model) :
  ResNet.init env layers pl = Ok m ->
  0 <= pl /\ ResNet.training m = true
  /\ ResNet.fc_in_features m = 108 /\ ResNet.fc_out_features m = pl
  /\ exists n1 n2 n3 n4,
       ResNet.layer1 m = fst (ResNet.make_layer 12 12 n1 1)
       /\ ResNet.layer2 m = fst (ResNet.make_layer 12 24 n2 1)
       /\ ResNet.layer3 m = fst (ResNet.make_layer 24 48 n3 1)
       /\ ResNet.layer4 m = fst (ResNet.make_layer 48 96 n4 1).
Proof.
  unfold ResNet.init; intros H; peel H.
  cbn [ResNet.make_layer negb Z.eqb Pos.eqb orb] in H.
  peel H.
  destruct (pl <? 0) eqn:Epl; [discriminate|]; apply Z.ltb_ge in Epl.
  injection H as <-; cbn [ResNet.training ResNet.fc_in_features ResNet.fc_out_features
                          ResNet.layer1 ResNet.layer2 ResNet.layer3 ResNet.layer4].
  split; [exact Epl|split; [reflexivity|split; [reflexivity|split; [reflexivity|]]]].
  do 4 eexists; repeat split; reflexivity.
Qed.

Lemma init_layer1 (env : ResNet.Env) (layers : list Z) (pl : Z) (m : ResNet.Model) :
  ResNet.init env layers pl = Ok m ->
  ResNet.training m = true
  /\ exists rest, ResNet.layer1 m = ResNet.basic_block 12 12 1 None :: rest.
Proof.
  intros H; destruct (init_model _ _ _ _ H) as (_ & Ht & _ & _ & n1 & _ & _ & _ & Hl & _).
  split; [exact Ht|]; rewrite Hl; cbn; eexists; reflexivity.
Qed.

Lemma make_layer_fresh (i o n s : Z) :
  Forall (fun c => ResNet.num_batches_tracked c = 0)
    (flat_map block_bns (fst (ResNet.make_layer i o n s))).
Proof.
  unfold ResNet.make_layer; cbn [fst flat_map].
  apply Forall_app; split.
  - unfold block_bns, ResNet.basic_block; cbn.
    destruct (_ || _); repeat constructor.
  - induction (Z.to_nat (n - 1)) as [|k IH]; cbn; [constructor|].
    repeat constructor; exact IH.
Qed.

Lemma step01_refl (l : list ResNet.ConvBN) : Forall2 step01 l l.
Proof. induction l; constructor; [left; reflexivity | assumption]. Qed.

(** A BatchNorm counts a batch at most once per call, and always when it
    produces its output in training mode. *)
Lemma conv_bn_counter (train : bool) (cb : ResNet.ConvBN) (x : ResNet.Shape) :
  step01 cb (snd (ResNet.conv_bn train cb x))
  /\ (train = true -> forall y, fst (ResNet.conv_bn train cb x) = Ok y ->
        ResNet.num_batches_tracked (snd (ResNet.conv_bn train cb x))
        = ResNet.num_batches_tracked cb + 1).
Proof.
  unfold step01, ResNet.conv_bn, ResNet.batch_norm.
  destruct (ResNet.conv2d cb x) as [y|e]; cbn [fst snd];
    [|split; [left; reflexivity | discriminate]].
  destruct y as [|a [|b [|c [|d [|z r]]]]]; cbn [fst snd];
    try (split; [left; reflexivity | discriminate]).
  destruct train; cbn [andb]; repeat case_match;
    cbn [fst snd ResNet.num_batches_tracked];
    (split; [tauto|intros ? ? ?; try discriminate; try reflexivity]).
Qed.

Ltac forall2_steps := repeat (apply Forall2_cons; [assumption|]); apply Forall2_nil.

Lemma block_forward_counters (env : ResNet.Env) (train : bool) (b : ResNet.Block)
    (x : ResNet.Shape) :
  Forall2 step01 (block_bns b) (block_bns (snd (ResNet.block_forward env train b x)))
  /\ (train = true -> forall y, fst (ResNet.block_forward env train b x) = Ok y ->
        map ResNet.num_batches_tracked (block_bns (snd (ResNet.block_forward env train b x)))
        = map (fun c => ResNet.num_batches_tracked c + 1) (block_bns b)).
Proof.
  unfold ResNet.block_forward.
  pose proof (conv_bn_counter train (ResNet.conv1 b) x) as [S1 T1].
  destruct (ResNet.conv_bn train (ResNet.conv1 b) x) as [[o1|e1] c1]; cbn [fst snd] in S1, T1.
  2: { unfold block_bns; cbn [snd ResNet.conv1 ResNet.conv2 ResNet.downsample].
       split; [constructor; [exact S1|apply step01_refl]|discriminate]. }
  pose proof (conv_bn_counter train (ResNet.conv2 b) o1) as [S2 T2].
  destruct (ResNet.conv_bn train (ResNet.conv2 b) o1) as [[o2|e2] c2]; cbn [fst snd] in S2, T2.
  2: { unfold block_bns; cbn [snd ResNet.conv1 ResNet.conv2 ResNet.downsample].
       split; [constructor; [exact S1|constructor; [exact S2|apply step01_refl]]|discriminate]. }
  unfold block_bns; destruct (ResNet.downsample b) as [d|] eqn:Ed.
  - pose proof (conv_bn_counter train d x) as [S3 T3].
    destruct (ResNet.conv_bn train d x) as [[idn|e3] d']; cbn [fst snd] in S3, T3.
    + destruct (ResNet.broadcast o2 idn) as [out|e4];
        [destruct (ResNet.env_F env)|]; cbn [snd fst ResNet.conv1 ResNet.conv2 ResNet.downsample];
        (split; [forall2_steps|]);
        try discriminate.
      intros Ht y _; cbn [map].
      rewrite (T1 Ht o1 eq_refl), (T2 Ht o2 eq_refl), (T3 Ht idn eq_refl); reflexivity.
    + cbn [snd fst ResNet.conv1 ResNet.conv2 ResNet.downsample].
      split; [forall2_steps|discriminate].
  - destruct (ResNet.broadcast o2 x) as [out|e4];
      [destruct (ResNet.env_F env)|]; cbn [snd fst ResNet.conv1 ResNet.conv2 ResNet.downsample];
      (split; [forall2_steps|]);
      try discriminate.
    intros Ht y _; cbn [map].
    rewrite (T1 Ht o1 eq_refl), (T2 Ht o2 eq_refl); reflexivity.
Qed.

Lemma layer_forward_counters (env : ResNet.Env) (train : bool) (bs : list ResNet.Block)
    (x : ResNet.Shape) :
  Forall2 step01 (flat_map block_bns bs)
    (flat_map block_bns (snd (ResNet.layer_forward env train bs x)))
  /\ (train = true -> forall y, fst (ResNet.layer_forward env train bs x) = Ok y ->
        map ResNet.num_batches_tracked
          (flat_map block_bns (snd (ResNet.layer_forward env train bs x)))
        = map (fun c => ResNet.num_batches_tracked c + 1) (flat_map block_bns bs)).
Proof.
  revert x; induction bs as [|b bs IH]; intros x; cbn [ResNet.layer_forward].
  - split; [constructor|reflexivity].
  - pose proof (block_forward_counters env train b x) as [S T].
    destruct (ResNet.block_forward env train b x) as [[y|e] b']; cbn [fst snd] in S, T.
    + destruct (IH y) as [S' T'].
      destruct (ResNet.layer_forward env train bs y) as [r bs']; cbn [fst snd flat_map] in *.
      split; [apply Forall2_app; assumption|].
      intros Ht z Hz; rewrite !map_app, (T Ht y eq_refl), (T' Ht z Hz); reflexivity.
    + cbn [fst snd flat_map].
      split; [apply Forall2_app; [exact S|apply step01_refl]|discriminate].
Qed.

Lemma forward_counters (env : ResNet.Env) (m : ResNet.Model)
    (hrv pv pv_inc : ResNet.Shape) (u : bool) :
  Forall2 step01 (model_bns m) (model_bns (snd (ResNet.forward env m hrv pv pv_inc u)))
  /\ (ResNet.training m = true -> forall out, fst (ResNet.forward env m hrv pv pv_inc u) = Ok out ->
        map ResNet.num_batches_tracked (model_bns (snd (ResNet.forward env m hrv pv pv_inc u)))
        = map (fun c => ResNet.num_batches_tracked c + 1) (model_bns m)).
Proof.
  unfold model_bns, ResNet.forward; rewrite !flat_map_app.
  pose proof (layer_forward_counters env (ResNet.training m) (ResNet.layer1 m) hrv) as [S1 T1].
  destruct (ResNet.layer_forward env (ResNet.training m) (ResNet.layer1 m) hrv)
    as [[x1|e] l1]; cbn [fst snd] in S1, T1.
  2: { cbn [snd ResNet.set_layers ResNet.layer1 ResNet.layer2 ResNet.layer3 ResNet.layer4].
       rewrite ?flat_map_app.
       split; [apply Forall2_app; [exact S1|apply step01_refl]|discriminate]. }
  pose proof (layer_forward_counters env (ResNet.training m) (ResNet.layer2 m) x1) as [S2 T2].
  destruct (ResNet.layer_forward env (ResNet.training m) (ResNet.layer2 m) x1)
    as [[x2|e] l2]; cbn [fst snd] in S2, T2.
  2: { cbn [snd ResNet.set_layers ResNet.layer1 ResNet.layer2 ResNet.layer3 ResNet.layer4].
       rewrite ?flat_map_app.
       split; [repeat (apply Forall2_app; [assumption|]); apply step01_refl|discriminate]. }
  pose proof (layer_forward_counters env (ResNet.training m) (ResNet.layer3 m) x2) as [S3 T3].
  destruct (ResNet.layer_forward env (ResNet.training m) (ResNet.layer3 m) x2)
    as [[x3|e] l3]; cbn [fst snd] in S3, T3.
  2: { cbn [snd ResNet.set_layers ResNet.layer1 ResNet.layer2 ResNet.layer3 ResNet.layer4].
       rewrite ?flat_map_app.
       split; [repeat (apply Forall2_app; [assumption|]); apply step01_refl|discriminate]. }
  pose proof (layer_forward_counters env (ResNet.training m) (ResNet.layer4 m) x3) as [S4 T4].
  destruct (ResNet.layer_forward env (ResNet.training m) (ResNet.layer4 m) x3)
    as [[x4|e] l4]; cbn [fst snd] in S4, T4.
  2: { cbn [snd ResNet.set_layers ResNet.layer1 ResNet.layer2 ResNet.layer3 ResNet.layer4].
       rewrite ?flat_map_app.
       split; [repeat (apply Forall2_app; [assumption|]); assumption|discriminate]. }
  destruct (head_frame env (ResNet.set_layers m l1 l2 l3 l4) x4 pv pv_inc u)
    as (_ & H1 & H2 & H3 & H4).
  rewrite H1, H2, H3, H4;
    cbn [ResNet.set_layers ResNet.layer1 ResNet.layer2 ResNet.layer3 ResNet.layer4].
  rewrite ?flat_map_app.
  split; [repeat (apply Forall2_app; [assumption|]); assumption|].
  intros Ht out _; rewrite !map_app, (T1 Ht x1 eq_refl), (T2 Ht x2 eq_refl),
    (T3 Ht x3 eq_refl), (T4 Ht x4 eq_refl); reflexivity.
Qed.

(** A call whose four stages produce their outputs goes on with the head,
    on the model holding the stages' new state. *)
Lemma forward_stages (env : ResNet.Env) (m : ResNet.Model) (hrv pv pv_inc : ResNet.Shape)
    (u : bool) (x1 x2 x3 x4 : ResNet.Shape) (l1 l2 l3 l4 : list ResNet.Block) :
  ResNet.layer_forward env (ResNet.training m) (ResNet.layer1 m) hrv = (Ok x1, l1) ->
  ResNet.layer_forward env (ResNet.training m) (ResNet.layer2 m) x1 = (Ok x2, l2) ->
  ResNet.layer_forward env (ResNet.training m) (ResNet.layer3 m) x2 = (Ok x3, l3) ->
  ResNet.layer_forward env (ResNet.training m) (ResNet.layer4 m) x3 = (Ok x4, l4) ->
  ResNet.forward env m hrv pv pv_inc u
  = ResNet.head env (ResNet.set_layers m l1 l2 l3 l4) x4 pv pv_inc u.
Proof.
  intros H1 H2 H3 H4; unfold ResNet.forward; cbv zeta.
  rewrite H1, H2, H3, H4; reflexivity.
Qed.

(** C9 (corrected): [forward] is not a function of its arguments alone.
    (i) A freshly constructed model is in training mode and every
    BatchNorm of it has tracked no batch.  (ii) A call on a batch of shape
    [(n, 12, h, w)] with [h, w > 0] makes the first BatchNorm of [layer1]
    count one batch, whatever the call then returns.  (iii) In training
    mode a call moves each BatchNorm counter by at most one, and a call
    that returns an output has moved every one of them by one.  (iv) When
    a call reaches the regression layer with a fused width
    [combined.shape[1]] different from [fc.in_features], it reads the
    global [predict_length]: unbound (as in [Resnet_model.py]) the call
    raises [NameError] and [fc] is kept; bound to [pl >= 0], [fc] is
    replaced by [Linear(width, pl)] and applied; bound to [pl < 0],
    [nn.Linear] raises [RuntimeError] and [fc] is kept. *)
Theorem forward_updates_model_state (env : ResNet.Env) (layers : list Z) (pl : Z)
    (m : ResNet.Model) (n h w : Z) (pv pv_inc : ResNet.Shape) (u : bool) :
  ResNet.init env layers pl = Ok m -> 0 < h -> 0 < w ->
  (ResNet.training m = true
   /\ Forall (fun c => ResNet.num_batches_tracked c = 0) (model_bns m))
  /\ (match ResNet.layer1 (snd (ResNet.forward env m [n; 12; h; w] pv pv_inc u)) with
      | b :: _ => ResNet.num_batches_tracked (ResNet.conv1 b)
      | [] => 0
      end) = 1
  /\ (forall m0 hrv, ResNet.training m0 = true ->
        Forall2 step01 (model_bns m0) (model_bns (snd (ResNet.forward env m0 hrv pv pv_inc u)))
        /\ (forall out, fst (ResNet.forward env m0 hrv pv pv_inc u) = Ok out ->
              map ResNet.num_batches_tracked
                (model_bns (snd (ResNet.forward env m0 hrv pv pv_inc u)))
              = map (fun c => ResNet.num_batches_tracked c + 1) (model_bns m0)))
  /\ (forall m0 hrv x1 x2 x3 x4 l1 l2 l3 l4 combined,
        ResNet.layer_forward env (ResNet.training m0) (ResNet.layer1 m0) hrv = (Ok x1, l1) ->
        ResNet.layer_forward env (ResNet.training m0) (ResNet.layer2 m0) x1 = (Ok x2, l2) ->
        ResNet.layer_forward env (ResNet.training m0) (ResNet.layer3 m0) x2 = (Ok x3, l3) ->
        ResNet.layer_forward env (ResNet.training m0) (ResNet.layer4 m0) x3 = (Ok x4, l4) ->
        ResNet.fuse x4 pv pv_inc u = Ok combined ->
        ResNet.fc_in_features m0 <> nth 1 combined 0 ->
        (ResNet.env_predict_length env = None ->
           ResNet.forward env m0 hrv pv pv_inc u
           = (Err (NameError "predict_length"%string), ResNet.set_layers m0 l1 l2 l3 l4))
        /\ (forall pl0, ResNet.env_predict_length env = Some pl0 -> 0 <= pl0 ->
              snd (ResNet.forward env m0 hrv pv pv_inc u)
              = ResNet.set_fc (ResNet.set_layers m0 l1 l2 l3 l4) (nth 1 combined 0) pl0
              /\ forall d0 wd, combined = [d0; wd] ->
                   fst (ResNet.forward env m0 hrv pv pv_inc u) = Ok [d0; pl0])
        /\ (forall pl0, ResNet.env_predict_length env = Some pl0 -> pl0 < 0 ->
              ResNet.forward env m0 hrv pv pv_inc u
              = (Err RuntimeError, ResNet.set_layers m0 l1 l2 l3 l4))).
Proof.
  intros Hi Hh Hw.
  destruct (init_model _ _ _ _ Hi)
    as (_ & Ht & _ & _ & n1 & n2 & n3 & n4 & L1 & L2 & L3 & L4).
  destruct (init_layer1 _ _ _ _ Hi) as [_ [rest Hl]].
  split; [|split; [|split]].
  - split; [exact Ht|].
    unfold model_bns; rewrite !flat_map_app, L1, L2, L3, L4.
    do 3 (apply Forall_app; split; [apply make_layer_fresh|]); apply make_layer_fresh.
  - rewrite forward_layer1, Ht, Hl.
    pose proof (layer_forward_head env true (ResNet.basic_block 12 12 1 None) rest
                  [n; 12; h; w]) as Hd.
    destruct (snd (ResNet.layer_forward _ _ _ _)) as [|b' l'] eqn:E;
      [discriminate|]; injection Hd as Hd; rewrite Hd.
    rewrite (block_forward_conv1 _ _ _ _ [n; 12; (h - 1) / 1 + 1; (w - 1) / 1 + 1]).
    + unfold ResNet.batch_norm; cbn [ResNet.basic_block ResNet.conv1 ResNet.conv_block
                                     ResNet.cb_out Z.eqb Pos.eqb negb andb].
      destruct (_ =? 1); reflexivity.
    + unfold ResNet.conv2d; cbn [ResNet.basic_block ResNet.conv1 ResNet.conv_block
                                 ResNet.cb_in ResNet.cb_out ResNet.cb_stride].
      rewrite Z.eqb_refl; apply Z.ltb_lt in Hh; apply Z.ltb_lt in Hw.
      rewrite Hh, Hw; reflexivity.
  - intros m0 hrv Ht0.
    destruct (forward_counters env m0 hrv pv pv_inc u) as [S T].
    split; [exact S|exact (T Ht0)].
  - intros m0 hrv x1 x2 x3 x4 l1 l2 l3 l4 combined H1 H2 H3 H4 Hf Hn.
    rewrite (forward_stages _ _ _ _ _ _ _ _ _ _ _ _ _ _ H1 H2 H3 H4).
    unfold ResNet.head; rewrite Hf.
    cbn [ResNet.set_layers ResNet.fc_in_features].
    apply Z.eqb_neq in Hn; rewrite Hn; cbn [negb].
    split; [|split].
    + intros ->; reflexivity.
    + intros pl0 -> Hp.
      replace (pl0 <? 0) with false by (symmetry; apply Z.ltb_ge; exact Hp).
      split; [reflexivity|].
      intros d0 wd ->; unfold ResNet.linear; cbn.
      rewrite Z.eqb_refl; reflexivity.
    + intros pl0 -> Hp.
      replace (pl0 <? 0) with true by (symmetry; apply Z.ltb_lt; exact Hp).
      reflexivity.
Qed.

(** Witness: the model [ResNetModel(BasicBlock, [4,4,4,4], 48)] with every
    global bound, called on a batch of shape (4,12,3,3) with a PV history
    of 24 steps: every BatchNorm counts the batch, and [fc] is replaced by
    a layer with 120 inputs whose output has shape (4, 48). *)
Lemma forward_updates_model_state_witness :
  let m := match ResNet.init (env_all_bound 48) [4; 4; 4; 4] 48 with
           | Ok m => m | Err _ => ResNet.Build_Model true [] [] [] [] 0 0 end in
  let f := ResNet.forward (env_all_bound 48) m [4; 12; 3; 3] [4; 24] [] false in
  ResNet.init (env_all_bound 48) [4; 4; 4; 4] 48 = Ok m
  /\ Forall (fun c => ResNet.num_batches_tracked c = 0) (model_bns m)
  /\ (match ResNet.layer1 (snd f) with
      | b :: _ => ResNet.num_batches_tracked (ResNet.conv1 b)
      | [] => 0
      end) = 1
  /\ map ResNet.num_batches_tracked (model_bns (snd f))
     = map (fun c => ResNet.num_batches_tracked c + 1) (model_bns m)
  /\ ResNet.fc_in_features (snd f) = 120 /\ fst f = Ok [4; 48].
Proof.
  intros m f.
  assert (Hi : ResNet.init (env_all_bound 48) [4; 4; 4; 4] 48 = Ok m)
    by (vm_compute; reflexivity).
  destruct (forward_updates_model_state (env_all_bound 48) [4; 4; 4; 4] 48 m 4 3 3
              [4; 24] [] false Hi ltac:(lia) ltac:(lia)) as ([_ H0] & H1 & H2 & H3).
  destruct (H2 m [4; 12; 3; 3] eq_refl) as [_ H2'].
  destruct (H3 m [4; 12; 3; 3] [4; 12; 3; 3] [4; 24; 3; 3] [4; 48; 3; 3] [4; 96; 3; 3]
              (snd (ResNet.layer_forward (env_all_bound 48) true (ResNet.layer1 m)
                      [4; 12; 3; 3]))
              (snd (ResNet.layer_forward (env_all_bound 48) true (ResNet.layer2 m)
                      [4; 12; 3; 3]))
              (snd (ResNet.layer_forward (env_all_bound 48) true (ResNet.layer3 m)
                      [4; 24; 3; 3]))
              (snd (ResNet.layer_forward (env_all_bound 48) true (ResNet.layer4 m)
                      [4; 48; 3; 3]))
              [4; 120])
    as (_ & H4 & _);
    try (vm_compute; reflexivity); [vm_compute; discriminate|].
  destruct (H4 48 eq_refl ltac:(lia)) as [Hs Ho].
  split; [exact Hi|split; [exact H0|split; [exact H1|split]]].
  - apply (H2' [4; 48]); subst f; rewrite (Ho 4 120 eq_refl); reflexivity.
  - split; [subst f; rewrite Hs; reflexivity|].
    subst f; exact (Ho 4 120 eq_refl).
Defined.

(** C9 counterexample: two calls with the same arguments do not see the
    same model.  With the defaults bound, a call that raises still moves
    the BatchNorm counters of a fresh model; with every global bound, a
    call with a PV history of 24 steps replaces [fc] (108 inputs) by a
    layer with 120 inputs. *)
Lemma forward_mutates_model :
  match ResNet.init env_defaults_only [4; 4; 4; 4] 48 with
  | Ok m => snd (ResNet.forward env_defaults_only m [4; 12; 3; 3] [4; 12] [] false) <> m
  | Err _ => False
  end
  /\ match ResNet.init (env_all_bound 48) [4; 4; 4; 4] 48 with
     | Ok m => ResNet.fc_in_features m = 108
               /\ ResNet.fc_in_features
                    (snd (ResNet.forward (env_all_bound 48) m [4; 12; 3; 3] [4; 24] [] false))
                  = 120
     | Err _ => False
     end.
Proof. vm_compute. split; [discriminate|split; reflexivity]. Qed.

(** * Further properties of [Dataset] *)

Lemma filter_filter_andb {A} (f g : A -> bool) (l : list A) :
  filter f (filter g l) = filter (fun a => g a && f a) l.
Proof.
  induction l as [|a l IH]; simpl; [reflexivity|].
  destruct (g a); simpl; [destruct (f a); simpl|]; rewrite IH; reflexivity.
Qed.

(** What [window] computes, field by field. *)
Lemma window_fields (ds : Dataset) (time : Z) (w : Window) :
  window ds time = Ok w ->
  (is_incident ds = false ->
     w_pv_features w = frame_of (xs_time time (time + 55) (pv ds))
     /\ w_pv_targets w = frame_of (xs_time (time + 60) (time + (60 * horizon ds + 55)) (pv ds)))
  /\ (is_incident ds = true ->
        exists rows, w_pv_features w = Frame ["power"; "angle_of_incidence_radians"]%string rows)
  /\ w_hrv_shape w
     = [Z.of_nat (List.length (filter (in_window time (time + 55)) (hrv_times (hrv ds))));
        hrv_ny (hrv ds); hrv_nx (hrv ds); hrv_nc (hrv ds)].
Proof.
  unfold window; intros H; peel H.
  repeat match goal with Ha : PyDatetime.add _ _ = Ok _ |- _ => apply add_ok in Ha end.
  subst; injection H as <-; cbn [w_pv_features w_pv_targets w_hrv_shape].
  split; [|split; [|reflexivity]].
  - intros Hi; rewrite Hi in *.
    repeat match goal with Hx : Ok _ = Ok _ |- _ => injection Hx as <- end.
    split; reflexivity.
  - intros Hi; rewrite Hi in *.
    match goal with Hx : select_cols _ _ = Ok _ |- _ =>
      unfold select_cols in Hx; peel Hx; injection Hx as <- end.
    eexists; reflexivity.
Qed.

(** [xs(site, level=1).to_numpy().squeeze(-1)] on a frame only succeeds
    when the frame has exactly one column; the result then has as many
    entries as the frame has rows for the site. *)
Lemma squeeze_frame (site : Z) (cols : list string) (rows : list (Z * Z * list Z))
    (f s : list Z) :
  xs_site_shape site (Frame cols rows) = Ok f -> squeeze_last f = Ok s ->
  List.length cols = 1%nat
  /\ s = [Z.of_nat (List.length (filter (fun r => let '(_, s, _) := r in Z.eqb s site) rows))].
Proof.
  unfold xs_site_shape; destruct (Nat.eqb _ 0); intros H; [discriminate|].
  injection H as <-; unfold squeeze_last; cbn [rev app].
  destruct (Z.of_nat (List.length cols)) as [|[p|p|]|p] eqn:Ez; try discriminate.
  intros H; injection H as <-; split; [lia | reflexivity].
Qed.

Lemma iter_sample_body (ds : Dataset) (fuel : nat) (smp : Sample) :
  In smp (fst (iter ds fuel)) ->
  exists time w, In time (fst (get_image_times ds fuel)) /\ window ds time = Ok w
    /\ In (site_id smp) (sites ds) /\ site_body ds w (site_id smp) = Ok smp.
Proof.
  unfold iter; destruct (get_image_times ds fuel) as [anchors st]; cbn [fst].
  intros Hin; apply iter_anchors_sample in Hin as (time & w & site & Ht & Ew & Hs & Eb).
  pose proof (site_body_shapes _ _ _ _ Eb) as (_ & Hid & _).
  rewrite Hid; exists time, w; auto.
Qed.

(** The PV features of a yielded sample come from a one-column frame. *)
Lemma site_body_pv (ds : Dataset) (w : Window) (site : Z) (smp : Sample)
    (cols : list string) (rows : list (Z * Z * list Z)) :
  site_body ds w site = Ok smp -> w_pv_features w = Frame cols rows ->
  List.length cols = 1%nat.
Proof.
  unfold site_body; intros H Hf; peel H; rewrite Hf in E.
  exact (proj1 (squeeze_frame _ _ _ _ _ E E0)).
Qed.

Lemma incidence_iter_empty (ds : Dataset) (fuel : nat) :
  is_incident ds = true -> fst (iter ds fuel) = [].
Proof.
  intros Hi; destruct (fst (iter ds fuel)) as [|smp l] eqn:E; [reflexivity|exfalso].
  assert (Hin : In smp (fst (iter ds fuel))) by (rewrite E; left; reflexivity).
  apply iter_sample_body in Hin as (time & w & _ & Ew & _ & Eb).
  destruct (proj1 (proj2 (window_fields _ _ _ Ew)) Hi) as [rows Hr].
  apply (site_body_pv _ _ _ _ _ _ Eb) in Hr; discriminate.
Qed.

(** [__iter__] in incidence mode never yields a sample: the features of a
    site are a two-column frame, and [squeeze(-1)] raises on it, inside the
    [try], for every site at every anchor. *)
Theorem incidence_mode_yields_nothing (ds : Dataset) (fuel : nat) :
  is_incident ds = true -> fst (iter ds fuel) = [].
Proof. exact (incidence_iter_empty ds fuel). Qed.

(** In plain mode the PV frame is used with all its columns, so a sample
    is only ever yielded when the PV table has exactly one column. *)
Theorem samples_need_single_pv_column (ds : Dataset) (fuel : nat) (smp : Sample) :
  In smp (fst (iter ds fuel)) -> List.length (pv_cols (pv ds)) = 1%nat.
Proof.
  intros Hin; apply iter_sample_body in Hin as (time & w & _ & Ew & _ & Eb).
  destruct (is_incident ds) eqn:Hi.
  - destruct (proj1 (proj2 (window_fields _ _ _ Ew)) Hi) as [rows Hr].
    apply (site_body_pv _ _ _ _ _ _ Eb) in Hr; discriminate.
  - destruct (proj1 (window_fields _ _ _ Ew) Hi) as [Hf _].
    exact (site_body_pv _ _ _ _ _ _ Eb Hf).
Qed.

(** Every yielded sample is for a configured site that the location map
    knows, has a PV history of shape [(12,)], a target of shape
    [(12 * horizon,)] and an HRV crop of shape [(12, crop_size,
    crop_size)]. *)
Theorem yielded_sample_shapes (ds : Dataset) (fuel : nat) (smp : Sample) :
  In smp (fst (iter ds fuel)) ->
  In (site_id smp) (sites ds) /\ In (site_id smp) (map fst (site_locations ds))
  /\ site_features smp = [12] /\ site_targets smp = [12 * horizon ds]
  /\ hrv_features smp = [12; crop_size ds; crop_size ds].
Proof.
  intros Hin.
  destruct (is_incident ds) eqn:Hi.
  { rewrite (incidence_iter_empty ds fuel Hi) in Hin; contradiction. }
  apply iter_sample_body in Hin as (time & w & _ & Ew & Hs & Eb).
  pose proof (site_body_lookup _ _ _ _ Eb) as Hl.
  apply site_body_shapes in Eb as (_ & _ & Hf & Ht & Hh).
  rewrite Hi in Hf; auto.
Qed.

(** A site is yielded at an anchor [t] only when its data there is
    complete: exactly 12 PV rows for the site with timestamps in
    [[t, t+55min]], exactly [12 * horizon] in [[t+60min, t+horizon h+55min]],
    and exactly 12 imagery time steps in [[t, t+55min]]. *)
Theorem yielded_sample_data_complete (ds : Dataset) (fuel : nat) (smp : Sample) :
  In smp (fst (iter ds fuel)) ->
  exists time, In time (fst (get_image_times ds fuel))
    /\ time_ids smp = map PyDatetime.iso_format
                        (date_range (time + 60) (time + 60 * horizon ds + 55))
    /\ Z.of_nat (List.length (filter (fun r => let '(ts, s, _) := r in
                                   in_window time (time + 55) ts && Z.eqb s (site_id smp))
                                 (pv_rows (pv ds)))) = 12
    /\ Z.of_nat (List.length (filter (fun r => let '(ts, s, _) := r in
                                   in_window (time + 60) (time + (60 * horizon ds + 55)) ts
                                   && Z.eqb s (site_id smp))
                                 (pv_rows (pv ds)))) = 12 * horizon ds
    /\ Z.of_nat (List.length (filter (in_window time (time + 55)) (hrv_times (hrv ds)))) = 12.
Proof.
  intros Hin.
  destruct (is_incident ds) eqn:Hi.
  { rewrite (incidence_iter_empty ds fuel Hi) in Hin; contradiction. }
  apply iter_sample_body in Hin as (time & w & Ht & Ew & _ & Eb).
  exists time; split; [exact Ht|].
  pose proof (window_fields _ _ _ Ew) as [Hp [_ Hhrv]].
  destruct (Hp Hi) as [Hf Htg].
  pose proof (site_body_shapes _ _ _ _ Eb) as (Hids & _ & Hsf & Hst & Hhf).
  split; [rewrite Hids; exact (window_time_ids _ _ _ Ew)|].
  unfold site_body in Eb; peel Eb.
  rewrite Hf in E; rewrite Htg in E1.
  destruct (squeeze_frame _ _ _ _ _ E E0) as [_ Ha0].
  destruct (squeeze_frame _ _ _ _ _ E1 E2) as [_ Ha2].
  rewrite Hi in E3; unfold py_assert in E3.
  destruct (list_Z_eqb a0 [12] && list_Z_eqb a2 [12 * horizon ds]) eqn:Ea; [|discriminate].
  apply andb_prop in Ea as [Ea0 Ea2]; apply list_Z_eqb_true in Ea0, Ea2.
  destruct a4 as [x y]; peel Eb.
  rewrite Hhrv in E5; unfold crop in E5.
  destruct (0 <? hrv_nc (hrv ds)); [|discriminate]; injection E5 as <-.
  unfold py_assert in E6; destruct (list_Z_eqb _ _) eqn:Ec in E6; [|discriminate].
  apply list_Z_eqb_true in Ec; injection Ec as Ent _ _.
  cbn [frame_of xs_time pv_rows] in Ha0, Ha2; rewrite filter_filter_andb in Ha0, Ha2.
  rewrite Ha0 in Ea0; rewrite Ha2 in Ea2.
  injection Ea0 as Ea0; injection Ea2 as Ea2.
  split; [|split; [|exact Ent]].
  - refine (eq_trans _ Ea0); f_equal; f_equal; apply filter_ext; intros [[ts s] v];
      reflexivity.
  - refine (eq_trans _ Ea2); f_equal; f_equal; apply filter_ext; intros [[ts s] v];
      reflexivity.
Qed.

Lemma slice_len_interior (n y c : Z) :
  0 <= c -> c <= y -> y + c <= n -> slice_len n (y - c) (y + c) = 2 * c.
Proof.
  intros H1 H2 H3; unfold slice_len, slice_bound.
  destruct (Z.ltb_spec (y - c) 0); destruct (Z.ltb_spec (y + c) 0); lia.
Qed.

(** A site whose pixel lies at least [crop_size > 0] away from two
    opposite edges of the grid is never yielded: its crop is [2 * crop_size]
    wide along that axis and fails the assertion against [crop_size]. *)
Theorem interior_site_never_yielded (ds : Dataset) (fuel : nat) (site x y : Z) :
  0 < crop_size ds ->
  lookup_site site (site_locations ds) = Ok (x, y) ->
  (crop_size ds <= y /\ y + crop_size ds <= hrv_ny (hrv ds))
  \/ (crop_size ds <= x /\ x + crop_size ds <= hrv_nx (hrv ds)) ->
  forall smp, In smp (fst (iter ds fuel)) -> site_id smp <> site.
Proof.
  intros Hc Hl Hb smp Hin Hid.
  apply iter_sample_body in Hin as (time & w & _ & Ew & _ & Eb).
  rewrite Hid in Eb.
  pose proof (window_fields _ _ _ Ew) as [_ [_ Hhrv]].
  unfold site_body in Eb; peel Eb.
  (* [peel] has rewritten the location lookup inside [Hl] as well *)
  injection Hl as ->; cbv iota in Eb; peel Eb.
  match goal with Hx : crop _ _ _ _ = Ok _ |- _ =>
    rewrite Hhrv in Hx; unfold crop in Hx;
    destruct (0 <? hrv_nc (hrv ds)); [injection Hx as <-|discriminate] end.
  match goal with Hx : py_assert (list_Z_eqb _ _) = Ok _ |- _ =>
    unfold py_assert in Hx; destruct (list_Z_eqb _ _) eqn:Ec in Hx; [|discriminate] end.
  apply list_Z_eqb_true in Ec; injection Ec as _ Ey Ex.
  destruct Hb as [[H1 H2]|[H1 H2]].
  - rewrite slice_len_interior in Ey by lia; lia.
  - rewrite slice_len_interior in Ex by lia; lia.
Qed.



(** When [end_date] is a valid date strictly before [start_date], the
    iteration yields nothing and ends normally. *)
Theorem reversed_dates_yield_nothing (ds : Dataset) (fuel : nat)
    (y1 m1 d1 y2 m2 d2 t1 t2 : Z) (r1 r2 : list Z) :
  start_date ds = y1 :: m1 :: d1 :: r1 ->
  end_date ds = y2 :: m2 :: d2 :: r2 ->
  PyDatetime.datetime y1 m1 d1 = Ok t1 ->
  PyDatetime.datetime y2 m2 d2 = Ok t2 ->
  PyDatetime.ymd2ord y2 m2 d2 < PyDatetime.ymd2ord y1 m1 d1 ->
  iter ds (S fuel) = ([], Done).
Proof.
  intros Hs He Ht1 Ht2 Hlt.
  pose proof (datetime_ok _ _ _ _ Ht1) as [E1 _].
  pose proof (datetime_ok _ _ _ _ Ht2) as [E2 _].
  unfold iter, get_image_times; rewrite Hs, He; cbn [py_index nth_error res_bind].
  rewrite Ht1, Ht2; cbn [days_loop].
  replace (t1 <=? t2) with false by (symmetry; apply Z.leb_gt; subst; lia).
  reflexivity.
Qed.

(** Witnesses *)

Lemma incidence_mode_yields_nothing_witness :
  let ds := Examples.ds_inc [(Examples.site_A, (3, 3))] 1 1 in
  snd (iter ds 100) = Done /\ List.length (fst (get_image_times ds 100)) = 9%nat
  /\ fst (iter ds 100) = [].
Proof.
  intros ds; split; [vm_compute; reflexivity|]; split; [vm_compute; reflexivity|].
  apply incidence_mode_yields_nothing; reflexivity.
Defined.

Lemma samples_need_single_pv_column_witness :
  let ds := Examples.ds_AB [(Examples.site_A, (3, 3))] 1 1 in
  match fst (iter ds 100) with
  | smp :: _ => List.length (pv_cols (pv ds)) = 1%nat
  | [] => False
  end.
Proof.
  intros ds.
  destruct (fst (iter ds 100)) as [|smp l] eqn:E; [vm_compute in E; discriminate|].
  apply (samples_need_single_pv_column ds 100 smp); rewrite E; left; reflexivity.
Defined.

Lemma yielded_sample_shapes_witness :
  let ds := Examples.ds_AB [(Examples.site_A, (3, 3))] 1 1 in
  match fst (iter ds 100) with
  | smp :: _ => In (site_id smp) (sites ds) /\ In (site_id smp) (map fst (site_locations ds))
                /\ site_features smp = [12] /\ site_targets smp = [12 * horizon ds]
                /\ hrv_features smp = [12; crop_size ds; crop_size ds]
  | [] => False
  end.
Proof.
  intros ds.
  destruct (fst (iter ds 100)) as [|smp l] eqn:E; [vm_compute in E; discriminate|].
  apply (yielded_sample_shapes ds 100 smp); rewrite E; left; reflexivity.
Defined.

Lemma yielded_sample_data_complete_witness :
  let ds := Examples.ds_AB [(Examples.site_A, (3, 3))] 1 1 in
  match fst (iter ds 100) with
  | smp :: _ =>
      exists time, In time (fst (get_image_times ds 100))
      /\ time_ids smp = map PyDatetime.iso_format
                          (date_range (time + 60) (time + 60 * horizon ds + 55))
      /\ Z.of_nat (List.length (filter (fun r => let '(ts, s, _) := r in
                                     in_window time (time + 55) ts && Z.eqb s (site_id smp))
                                   (pv_rows (pv ds)))) = 12
      /\ Z.of_nat (List.length (filter (fun r => let '(ts, s, _) := r in
                                     in_window (time + 60) (time + (60 * horizon ds + 55)) ts
                                     && Z.eqb s (site_id smp))
                                   (pv_rows (pv ds)))) = 12 * horizon ds
      /\ Z.of_nat (List.length (filter (in_window time (time + 55)) (hrv_times (hrv ds)))) = 12
  | [] => False
  end.
Proof.
  intros ds.
  destruct (fst (iter ds 100)) as [|smp l] eqn:E; [vm_compute in E; discriminate|].
  apply (yielded_sample_data_complete ds 100 smp); rewrite E; left; reflexivity.
Defined.

Lemma interior_site_never_yielded_witness :
  let ds := Examples.ds_AB [(Examples.site_A, (1, 1))] 1 1 in
  forallb (fun smp => negb (Z.eqb (site_id smp) Examples.site_A)) (fst (iter ds 100)) = true.
Proof.
  intros ds.
  apply forallb_forall; intros smp Hin.
  pose proof (interior_site_never_yielded ds 100 Examples.site_A 1 1
                ltac:(vm_compute; reflexivity) ltac:(vm_compute; reflexivity)
                ltac:(left; vm_compute; split; discriminate) smp Hin) as H.
  apply Z.eqb_neq in H; rewrite H; reflexivity.
Defined.


Lemma reversed_dates_yield_nothing_witness :
  iter (Examples.ds_cfg [(Examples.site_A, (1, 1))] false [2020; 7; 2] [2020; 7; 1] 1 1) 100
  = ([], Done).
Proof.
  apply (reversed_dates_yield_nothing _ 99 2020 7 2 2020 7 1
           (PyDatetime.ymd2ord 2020 7 2 * 1440) (PyDatetime.ymd2ord 2020 7 1 * 1440) [] []);
    try reflexivity; vm_compute; reflexivity.
Defined.

(** * Further properties of [ResNetModel] *)

Lemma length_make_layer (i o n s : Z) :
  List.length (fst (ResNet.make_layer i o n s)) = Z.to_nat (Z.max 1 n).
Proof. cbn [ResNet.make_layer fst List.length]; rewrite repeat_length; lia. Qed.

(** [ResNetModel(BasicBlock, layers, predict_length)], once the class
    statement has run, reads the first four block counts and ignores the
    rest.  With [predict_length >= 0] it builds stages of
    [max(1, layers[k])] blocks (the first block is always built,
    [range(1, n)] adds the others) and a model in training mode with
    [fc = Linear(108, predict_length)]; with [predict_length < 0],
    [nn.Linear] raises [RuntimeError]. *)
Theorem init_structure (env : ResNet.Env) (n1 n2 n3 n4 pl : Z) (rest : list Z) :
  ResNet.env_defaults env = true ->
  (pl < 0 -> ResNet.init env (n1 :: n2 :: n3 :: n4 :: rest) pl = Err RuntimeError)
  /\ (0 <= pl ->
      exists m, ResNet.init env (n1 :: n2 :: n3 :: n4 :: rest) pl = Ok m
        /\ ResNet.training m = true
        /\ List.length (ResNet.layer1 m) = Z.to_nat (Z.max 1 n1)
        /\ List.length (ResNet.layer2 m) = Z.to_nat (Z.max 1 n2)
        /\ List.length (ResNet.layer3 m) = Z.to_nat (Z.max 1 n3)
        /\ List.length (ResNet.layer4 m) = Z.to_nat (Z.max 1 n4)
        /\ ResNet.fc_in_features m = 108 /\ ResNet.fc_out_features m = pl).
Proof.
  intros He; unfold ResNet.init, ResNet.class_def; rewrite He.
  cbn [res_bind ResNet.py_index nth_error].
  rewrite <- (length_make_layer 12 12 n1 1), <- (length_make_layer 12 24 n2 1),
          <- (length_make_layer 24 48 n3 1), <- (length_make_layer 48 96 n4 1).
  cbn [ResNet.make_layer].
  split; intros Hp.
  - replace (pl <? 0) with true by (symmetry; apply Z.ltb_lt; exact Hp); reflexivity.
  - replace (pl <? 0) with false by (symmetry; apply Z.ltb_ge; exact Hp).
    eexists; split; [reflexivity|].
    repeat split.
Qed.

(** With fewer than four block counts, construction raises [IndexError]. *)
Theorem init_short_layers_index_error (env : ResNet.Env) (layers : list Z) (pl : Z) :
  ResNet.env_defaults env = true -> (List.length layers < 4)%nat ->
  ResNet.init env layers pl = Err IndexError.
Proof.
  intros He Hl; unfold ResNet.init, ResNet.class_def; rewrite He.
  destruct layers as [|a [|b [|c [|d l]]]]; cbn [List.length] in Hl; try lia;
    reflexivity.
Qed.

Lemma conv_bn_eval (cb : ResNet.ConvBN) (x : ResNet.Shape) :
  snd (ResNet.conv_bn false cb x) = cb.
Proof.
  unfold ResNet.conv_bn, ResNet.batch_norm.
  destruct (ResNet.conv2d cb x) as [y|e]; [|reflexivity].
  destruct y as [|a [|b [|c [|d [|]]]]]; try reflexivity.
  cbn [snd]; destruct (negb _); [reflexivity|].
  destruct (false && _); reflexivity.
Qed.

Lemma block_forward_eval (env : ResNet.Env) (b : ResNet.Block) (x : ResNet.Shape) :
  snd (ResNet.block_forward env false b x) = b.
Proof.
  unfold ResNet.block_forward.
  pose proof (conv_bn_eval (ResNet.conv1 b) x) as H1.
  destruct (ResNet.conv_bn false (ResNet.conv1 b) x) as [[o1|e] c1]; cbn [snd] in H1; subst c1.
  2: destruct b; reflexivity.
  pose proof (conv_bn_eval (ResNet.conv2 b) o1) as H2.
  destruct (ResNet.conv_bn false (ResNet.conv2 b) o1) as [[o2|e] c2]; cbn [snd] in H2; subst c2.
  2: destruct b; reflexivity.
  destruct (ResNet.downsample b) as [d|] eqn:Ed.
  - pose proof (conv_bn_eval d x) as H3.
    destruct (ResNet.conv_bn false d x) as [r d'] eqn:E3; cbn [snd] in H3; subst d'.
    destruct r as [idn|e]; [destruct (ResNet.broadcast o2 idn); [destruct (ResNet.env_F env)|]|];
      destruct b; cbn in *; subst; reflexivity.
  - destruct (ResNet.broadcast o2 x); [destruct (ResNet.env_F env)|];
      destruct b; cbn in *; subst; reflexivity.
Qed.

Lemma layer_forward_eval (env : ResNet.Env) (bs : list ResNet.Block) (x : ResNet.Shape) :
  snd (ResNet.layer_forward env false bs x) = bs.
Proof.
  revert x; induction bs as [|b bs IH]; intros x; [reflexivity|].
  cbn [ResNet.layer_forward].
  pose proof (block_forward_eval env b x) as Hb.
  destruct (ResNet.block_forward env false b x) as [[y|e] b']; cbn [snd] in Hb; subst b'.
  - specialize (IH y); destruct (ResNet.layer_forward env false bs y) as [r bs'].
    cbn [snd] in *; subst; reflexivity.
  - reflexivity.
Qed.

Lemma set_layers_same (m : ResNet.Model) :
  ResNet.set_layers m (ResNet.layer1 m) (ResNet.layer2 m) (ResNet.layer3 m) (ResNet.layer4 m)
  = m.
Proof. destruct m; reflexivity. Qed.

(** In evaluation mode the convolutional stages leave the model as it is:
    [forward] runs them on the model's own layers and then the head. *)
Lemma forward_eval (env : ResNet.Env) (m : ResNet.Model) (hrv pv pv_inc : ResNet.Shape)
    (u : bool) :
  ResNet.training m = false ->
  ResNet.forward env m hrv pv pv_inc u =
  match fst (ResNet.layer_forward env false (ResNet.layer1 m) hrv) with
  | Err e => (Err e, m)
  | Ok x1 =>
  match fst (ResNet.layer_forward env false (ResNet.layer2 m) x1) with
  | Err e => (Err e, m)
  | Ok x2 =>
  match fst (ResNet.layer_forward env false (ResNet.layer3 m) x2) with
  | Err e => (Err e, m)
  | Ok x3 =>
  match fst (ResNet.layer_forward env false (ResNet.layer4 m) x3) with
  | Err e => (Err e, m)
  | Ok x4 => ResNet.head env m x4 pv pv_inc u
  end end end end.
Proof.
  intros Ht; unfold ResNet.forward; rewrite Ht.
  pose proof (layer_forward_eval env (ResNet.layer1 m) hrv) as H1.
  destruct (ResNet.layer_forward env false (ResNet.layer1 m) hrv) as [[x1|e] l1];
    cbn [snd fst] in *; subst l1; [|rewrite set_layers_same; reflexivity].
  pose proof (layer_forward_eval env (ResNet.layer2 m) x1) as H2.
  destruct (ResNet.layer_forward env false (ResNet.layer2 m) x1) as [[x2|e] l2];
    cbn [snd fst] in *; subst l2; [|rewrite set_layers_same; reflexivity].
  pose proof (layer_forward_eval env (ResNet.layer3 m) x2) as H3.
  destruct (ResNet.layer_forward env false (ResNet.layer3 m) x2) as [[x3|e] l3];
    cbn [snd fst] in *; subst l3; [|rewrite set_layers_same; reflexivity].
  pose proof (layer_forward_eval env (ResNet.layer4 m) x3) as H4.
  destruct (ResNet.layer_forward env false (ResNet.layer4 m) x3) as [[x4|e] l4];
    cbn [snd fst] in *; subst l4; rewrite set_layers_same; reflexivity.
Qed.

(** In evaluation mode, [forward] never changes the convolutional stages
    nor the mode: only [fc] can change. *)
Theorem eval_forward_keeps_layers (env : ResNet.Env) (m : ResNet.Model)
    (hrv pv pv_inc : ResNet.Shape) (u : bool) :
  ResNet.training m = false ->
  let m' := snd (ResNet.forward env m hrv pv pv_inc u) in
  ResNet.training m' = false /\ ResNet.layer1 m' = ResNet.layer1 m
  /\ ResNet.layer2 m' = ResNet.layer2 m /\ ResNet.layer3 m' = ResNet.layer3 m
  /\ ResNet.layer4 m' = ResNet.layer4 m.
Proof.
  intros Ht m'; subst m'; rewrite (forward_eval _ _ _ _ _ _ Ht).
  repeat case_match; cbn [snd]; try (repeat split; assumption).
  rewrite <- Ht; apply head_frame.
Qed.

(** The regression head reallocates [fc] at most once for given input
    shapes: running it again on the state it leaves gives the same output
    and the same state. *)
Theorem head_idempotent (env : ResNet.Env) (m : ResNet.Model) (x pv pv_inc : ResNet.Shape)
    (u : bool) :
  ResNet.head env (snd (ResNet.head env m x pv pv_inc u)) x pv pv_inc u
  = ResNet.head env m x pv pv_inc u.
Proof.
  unfold ResNet.head.
  destruct (ResNet.fuse x pv pv_inc u) as [c|e]; [|reflexivity].
  destruct (ResNet.fc_in_features m =? nth 1 c 0) eqn:E; cbn [negb snd].
  - rewrite E; reflexivity.
  - destruct (ResNet.env_predict_length env) as [pl|]; cbn [snd].
    + destruct (pl <? 0); cbn [snd].
      * rewrite E; reflexivity.
      * cbn [ResNet.set_fc ResNet.fc_in_features]; rewrite Z.eqb_refl; reflexivity.
    + rewrite E; reflexivity.
Qed.

(** In evaluation mode, calling [forward] twice with the same arguments
    gives the same output and leaves the same state as calling it once. *)
Theorem eval_forward_idempotent (env : ResNet.Env) (m : ResNet.Model)
    (hrv pv pv_inc : ResNet.Shape) (u : bool) :
  ResNet.training m = false ->
  ResNet.forward env (snd (ResNet.forward env m hrv pv pv_inc u)) hrv pv pv_inc u
  = ResNet.forward env m hrv pv pv_inc u.
Proof.
  intros Ht.
  pose proof (eval_forward_keeps_layers env m hrv pv pv_inc u Ht) as (Ht' & H1 & H2 & H3 & H4).
  rewrite (forward_eval env (snd _) hrv pv pv_inc u Ht'), H1, H2, H3, H4.
  rewrite (forward_eval env m hrv pv pv_inc u Ht).
  repeat case_match; try reflexivity.
  apply head_idempotent.
Qed.

Lemma broadcast_aligned_same (a : ResNet.Shape) : ResNet.broadcast_aligned a a = Ok a.
Proof.
  induction a as [|x a IH]; [reflexivity|].
  cbn [ResNet.broadcast_aligned]; rewrite Z.eqb_refl; cbn [orb res_bind].
  rewrite IH; reflexivity.
Qed.

Lemma broadcast_same (a : ResNet.Shape) : ResNet.broadcast a a = Ok a.
Proof.
  unfold ResNet.broadcast; rewrite Nat.sub_diag; apply broadcast_aligned_same.
Qed.

Lemma conv_bn_shape (train : bool) (cb : ResNet.ConvBN) (n c h w : Z) :
  ResNet.cb_in cb = c -> ResNet.cb_stride cb = 1 -> 0 < h -> 0 < w ->
  (train = true -> n * h * w <> 1) ->
  fst (ResNet.conv_bn train cb [n; c; h; w]) = Ok [n; ResNet.cb_out cb; h; w].
Proof.
  intros Hc Hs Hh Hw Hn.
  unfold ResNet.conv_bn, ResNet.conv2d; rewrite Hc, Hs, Z.eqb_refl.
  apply Z.ltb_lt in Hh as Hh'; apply Z.ltb_lt in Hw as Hw'; rewrite Hh', Hw'.
  cbn [andb]; rewrite !Z.div_1_r, !Z.sub_add.
  unfold ResNet.batch_norm; rewrite Z.eqb_refl; cbn [negb].
  destruct train; [|reflexivity].
  rewrite (proj2 (Z.eqb_neq _ _) (Hn eq_refl)); reflexivity.
Qed.

(** A residual block of [_make_layer] (stride 1) maps [(n, i, h, w)] to
    [(n, o, h, w)] when [F] is bound. *)
Lemma block_shape (env : ResNet.Env) (train : bool) (i o n h w : Z)
    (ds : option ResNet.ConvBN) :
  ResNet.env_F env = true -> 0 < h -> 0 < w -> (train = true -> n * h * w <> 1) ->
  (ds = None /\ i = o)
  \/ ds = Some {| ResNet.cb_in := i; ResNet.cb_out := o; ResNet.cb_stride := 1;
                  ResNet.cb_relu := false; ResNet.num_batches_tracked := 0 |} ->
  fst (ResNet.block_forward env train (ResNet.basic_block i o 1 ds) [n; i; h; w])
  = Ok [n; o; h; w].
Proof.
  intros HF Hh Hw Hn Hds; unfold ResNet.block_forward.
  pose proof (conv_bn_shape train (ResNet.conv1 (ResNet.basic_block i o 1 ds)) n i h w
                eq_refl eq_refl Hh Hw Hn) as H1.
  destruct (ResNet.conv_bn train _ [n; i; h; w]) as [r1 c1]; cbn [fst] in H1; subst r1.
  pose proof (conv_bn_shape train (ResNet.conv2 (ResNet.basic_block i o 1 ds)) n
                (ResNet.cb_out (ResNet.conv1 (ResNet.basic_block i o 1 ds))) h w
                eq_refl eq_refl Hh Hw Hn) as H2.
  destruct (ResNet.conv_bn train _ [n; ResNet.cb_out _; h; w]) as [r2 c2];
    cbn [fst] in H2; subst r2.
  cbn [ResNet.basic_block ResNet.downsample ResNet.conv_block ResNet.cb_out ResNet.conv1
       ResNet.conv2].
  destruct Hds as [[-> ->] | ->].
  - rewrite broadcast_same, HF; reflexivity.
  - pose proof (conv_bn_shape train {| ResNet.cb_in := i; ResNet.cb_out := o;
                  ResNet.cb_stride := 1; ResNet.cb_relu := false;
                  ResNet.num_batches_tracked := 0 |} n i h w eq_refl eq_refl Hh Hw Hn) as H3.
    destruct (ResNet.conv_bn train _ [n; i; h; w]) as [r3 c3]; cbn [fst] in H3; subst r3.
    cbn [ResNet.cb_out]; rewrite broadcast_same, HF; reflexivity.
Qed.

Lemma layer_forward_cons_ok (env : ResNet.Env) (train : bool) (b : ResNet.Block)
    (bs : list ResNet.Block) (x y : ResNet.Shape) :
  fst (ResNet.block_forward env train b x) = Ok y ->
  fst (ResNet.layer_forward env train (b :: bs) x) = fst (ResNet.layer_forward env train bs y).
Proof.
  intros H; cbn [ResNet.layer_forward].
  destruct (ResNet.block_forward env train b x) as [r b']; cbn [fst] in H; subst r.
  destruct (ResNet.layer_forward env train bs y); reflexivity.
Qed.

(** A stage built by [_make_layer] with stride 1 maps [(n, i, h, w)] to
    [(n, o, h, w)]. *)
Lemma stage_shape (env : ResNet.Env) (train : bool) (i o n h w : Z) (k : nat)
    (ds : option ResNet.ConvBN) :
  ResNet.env_F env = true -> 0 < h -> 0 < w -> (train = true -> n * h * w <> 1) ->
  (ds = None /\ i = o)
  \/ ds = Some {| ResNet.cb_in := i; ResNet.cb_out := o; ResNet.cb_stride := 1;
                  ResNet.cb_relu := false; ResNet.num_batches_tracked := 0 |} ->
  fst (ResNet.layer_forward env train
         (ResNet.basic_block i o 1 ds :: repeat (ResNet.basic_block o o 1 None) k)
         [n; i; h; w])
  = Ok [n; o; h; w].
Proof.
  intros HF Hh Hw Hn Hds.
  rewrite (layer_forward_cons_ok _ _ _ _ _ _ (block_shape env train i o n h w ds HF Hh Hw Hn Hds)).
  induction k as [|k IH]; [reflexivity|].
  cbn [repeat].
  rewrite (layer_forward_cons_ok _ _ _ _ _ _
             (block_shape env train o o n h w None HF Hh Hw Hn (or_introl (conj eq_refl eq_refl)))).
  exact IH.
Qed.

(** The fusion of the plain branch: [flatten(x)] and [flatten(pv)]
    concatenated along dimension 1. *)
Lemma fuse_plain (n c h w : Z) (pv_inc pv : ResNet.Shape) :
  0 < h -> 0 < w -> tl pv <> [] -> hd_error pv = Some n ->
  ResNet.fuse [n; c; h; w] pv pv_inc false = Ok [n; c + fold_right Z.mul 1 (tl pv)].
Proof.
  intros Hh Hw Hks Hn; destruct pv as [|n' [|k ks]]; try discriminate; [contradiction|].
  injection Hn as ->.
  unfold ResNet.fuse, ResNet.adaptive_pool.
  apply Z.ltb_lt in Hh; apply Z.ltb_lt in Hw; rewrite Hh, Hw.
  cbn; rewrite Z.eqb_refl; cbn.
  do 3 f_equal; ring.
Qed.

(** With the defaults, [F] and [predict_length] bound, a model built by
    [ResNetModel(BasicBlock, layers, predict_length)] maps an HRV batch of
    shape [(n, 12, h, w)] ([h, w > 0], and more than one value per
    channel, as training-mode BatchNorm requires) and PV of shape
    [(n, k1, k2, ...)] with [use_pv_inc=False] to an output of shape
    [(n, predict_length)], whatever the PV width. *)
Theorem forward_output_shape (layers : list Z) (pl n h w : Z) (ks pv_inc : ResNet.Shape)
    (m : ResNet.Model) :
  ResNet.init (env_all_bound pl) layers pl = Ok m ->
  0 < h -> 0 < w -> n * h * w <> 1 -> ks <> [] ->
  fst (ResNet.forward (env_all_bound pl) m [n; 12; h; w] (n :: ks) pv_inc false) = Ok [n; pl].
Proof.
  intros Hi Hh Hw Hn Hks.
  unfold ResNet.init in Hi; cbn [ResNet.class_def env_all_bound ResNet.env_defaults] in Hi.
  peel Hi.
  cbn [ResNet.make_layer negb Z.eqb Pos.eqb orb] in Hi.
  peel Hi; destruct (pl <? 0) eqn:Epl; [discriminate|]; injection Hi as <-.
  assert (Hn' : true = true -> n * h * w <> 1) by (intros _; exact Hn).
  unfold ResNet.forward; cbn [ResNet.training ResNet.layer1 ResNet.layer2 ResNet.layer3
                                ResNet.layer4].
  pose proof (stage_shape (env_all_bound pl) true 12 12 n h w (Z.to_nat (a0 - 1)) None eq_refl Hh Hw Hn'
                (or_introl (conj eq_refl eq_refl))) as S1.
  destruct (ResNet.layer_forward _ true _ [n; 12; h; w]) as [r1 l1]; cbn [fst] in S1; subst r1.
  pose proof (stage_shape (env_all_bound pl) true 12 24 n h w (Z.to_nat (a1 - 1)) _ eq_refl Hh Hw Hn'
                (or_intror eq_refl)) as S2.
  destruct (ResNet.layer_forward _ true _ [n; 12; h; w]) as [r2 l2]; cbn [fst] in S2; subst r2.
  pose proof (stage_shape (env_all_bound pl) true 24 48 n h w (Z.to_nat (a2 - 1)) _ eq_refl Hh Hw Hn'
                (or_intror eq_refl)) as S3.
  destruct (ResNet.layer_forward _ true _ [n; 24; h; w]) as [r3 l3]; cbn [fst] in S3; subst r3.
  pose proof (stage_shape (env_all_bound pl) true 48 96 n h w (Z.to_nat (a3 - 1)) _ eq_refl Hh Hw Hn'
                (or_intror eq_refl)) as S4.
  destruct (ResNet.layer_forward _ true _ [n; 48; h; w]) as [r4 l4]; cbn [fst] in S4; subst r4.
  unfold ResNet.head; rewrite (fuse_plain n 96 h w pv_inc (n :: ks) Hh Hw Hks eq_refl); cbn [nth tl].
  cbn [ResNet.set_layers ResNet.fc_in_features ResNet.fc_out_features env_all_bound
       ResNet.env_predict_length].
  unfold ResNet.linear.
  match goal with |- context [negb (?a =? ?b)] => destruct (a =? b) eqn:Efc end;
    cbn [negb].
  - cbn [rev app ResNet.set_layers ResNet.fc_in_features ResNet.fc_out_features].
    rewrite Z.eqb_sym, Efc; reflexivity.
  - rewrite Epl.
    cbn [rev app ResNet.set_fc ResNet.fc_in_features ResNet.fc_out_features].
    rewrite Z.eqb_refl; reflexivity.
Qed.

Lemma adaptive_pool_rank (x s : ResNet.Shape) :
  ResNet.adaptive_pool x = Ok s -> exists d0 d1 r, s = d0 :: d1 :: r /\ r <> [].
Proof.
  unfold ResNet.adaptive_pool.
  destruct x as [|a [|b [|c [|d [|]]]]]; try discriminate;
    destruct (_ && _); try discriminate; intros H; injection H as <-; do 3 eexists;
    split; [reflexivity | discriminate | reflexivity | discriminate].
Qed.

Lemma head_pv_inc_fails (env : ResNet.Env) (m : ResNet.Model) (x pv pv_inc : ResNet.Shape) :
  List.length pv_inc = 3%nat ->
  exists e, fst (ResNet.head env m x pv pv_inc true) = Err e.
Proof.
  intros Hl; unfold ResNet.head, ResNet.fuse.
  destruct (ResNet.adaptive_pool x) as [s|e] eqn:Ea; cbn [res_bind]; [|eexists; reflexivity].
  destruct (adaptive_pool_rank _ _ Ea) as (d0 & d1 & r & -> & Hr).
  destruct pv_inc as [|a [|b [|c [|]]]]; cbn [List.length] in Hl; try lia.
  unfold ResNet.index2.
  destruct ((0 <=? 0) && (0 <? c)); cbn [res_bind]; [|eexists; reflexivity].
  destruct ((0 <=? 1) && (1 <? c)); cbn [res_bind]; [|eexists; reflexivity].
  unfold ResNet.cat1, ResNet.same_except1; cbn [forallb].
  destruct r as [|z r]; [contradiction|]; cbn [ResNet.shape_eqb].
  rewrite andb_false_r; cbn [andb]; eexists; reflexivity.
Qed.

(** The [use_pv_inc] branch never produces an output for a 3-D [pv_inc]:
    the pooled [x] is still 4-D (it is only flattened in the other branch)
    and [torch.cat] of it with the 2-D power and angle slices raises. *)
Theorem pv_inc_branch_always_raises (env : ResNet.Env) (m : ResNet.Model)
    (hrv pv pv_inc : ResNet.Shape) :
  List.length pv_inc = 3%nat ->
  exists e, fst (ResNet.forward env m hrv pv pv_inc true) = Err e.
Proof.
  intros Hl; unfold ResNet.forward.
  repeat case_match; cbn [fst]; try (eexists; reflexivity).
  apply head_pv_inc_fails; exact Hl.
Qed.

(** Witnesses *)

Lemma init_structure_witness :
  ResNet.init env_defaults_only [0; 2; 4; 4; 7] (-1) = Err RuntimeError
  /\ exists m, ResNet.init env_defaults_only [0; 2; 4; 4; 7] 48 = Ok m
    /\ ResNet.training m = true
    /\ List.length (ResNet.layer1 m) = Z.to_nat (Z.max 1 0)
    /\ List.length (ResNet.layer2 m) = Z.to_nat (Z.max 1 2)
    /\ List.length (ResNet.layer3 m) = Z.to_nat (Z.max 1 4)
    /\ List.length (ResNet.layer4 m) = Z.to_nat (Z.max 1 4)
    /\ ResNet.fc_in_features m = 108 /\ ResNet.fc_out_features m = 48.
Proof.
  split.
  - apply (proj1 (init_structure env_defaults_only 0 2 4 4 (-1) [7] eq_refl)); lia.
  - apply (proj2 (init_structure env_defaults_only 0 2 4 4 48 [7] eq_refl)); lia.
Defined.

Lemma init_short_layers_index_error_witness :
  ResNet.init env_defaults_only [4; 4; 4] 48 = Err IndexError.
Proof. apply init_short_layers_index_error; [reflexivity | cbn; lia]. Defined.

Lemma eval_forward_keeps_layers_witness :
  let m := ResNet.Build_Model false [ResNet.basic_block 12 12 1 None] [] [] [] 108 48 in
  let m' := snd (ResNet.forward (env_all_bound 48) m [4; 12; 3; 3] [4; 12] [] false) in
  ResNet.training m' = false /\ ResNet.layer1 m' = ResNet.layer1 m
  /\ ResNet.layer2 m' = ResNet.layer2 m /\ ResNet.layer3 m' = ResNet.layer3 m
  /\ ResNet.layer4 m' = ResNet.layer4 m.
Proof. intros m; apply eval_forward_keeps_layers; reflexivity. Defined.

Lemma eval_forward_idempotent_witness :
  let m := ResNet.Build_Model false [ResNet.basic_block 12 12 1 None] [] [] [] 108 48 in
  ResNet.forward (env_all_bound 48)
    (snd (ResNet.forward (env_all_bound 48) m [4; 12; 3; 3] [4; 24] [] false))
    [4; 12; 3; 3] [4; 24] [] false
  = ResNet.forward (env_all_bound 48) m [4; 12; 3; 3] [4; 24] [] false.
Proof. intros m; apply eval_forward_idempotent; reflexivity. Defined.

Lemma forward_output_shape_witness :
  match ResNet.init (env_all_bound 48) [4; 4; 4; 4] 48 with
  | Ok m => fst (ResNet.forward (env_all_bound 48) m [4; 12; 3; 3] [4; 24] [] false)
            = Ok [4; 48]
  | Err _ => False
  end.
Proof.
  destruct (ResNet.init (env_all_bound 48) [4; 4; 4; 4] 48) as [m|e] eqn:Ei.
  - apply (forward_output_shape [4; 4; 4; 4] 48 4 3 3 [24] [] m Ei); lia || discriminate.
  - vm_compute in Ei; discriminate.
Defined.

Lemma pv_inc_branch_always_raises_witness :
  match ResNet.init (env_all_bound 48) [4; 4; 4; 4] 48 with
  | Ok m => exists e, fst (ResNet.forward (env_all_bound 48) m [4; 12; 3; 3] [4; 12]
                             [4; 12; 2] true) = Err e
  | Err _ => False
  end.
Proof.
  destruct (ResNet.init (env_all_bound 48) [4; 4; 4; 4] 48) as [m|e] eqn:Ei.
  - apply pv_inc_branch_always_raises; reflexivity.
  - vm_compute in Ei; discriminate.
Defined.
